(** * Real-estate listing API: request-to-query translation and response shaping

    A shallow embedding of [main.py] and [schemas.py]: the Pydantic schemas
    with their field constraints, the construction of the MongoDB filter in
    [search_properties], the renaming of [_id] to [id] in every listing, the
    seeding of the sample properties and the three creation routes.

    Conventions.
    - Python [str] is [string], the UTF-8 bytes of the text; [int] is [Z];
      [float] is [Q] (the code only stores and compares floats, and every
      finite double is a rational).
    - Python dicts used as maps (documents, filters, operator documents) are
      [gmap string _].
    - The route handlers thread the database handle explicitly and return an
      HTTP response. *)

From Stdlib Require Import ZArith QArith Ascii String List Lia.
From stdpp Require Import base option list strings gmap fin_maps.

Local Open Scope string_scope.
Local Open Scope Z_scope.

(** ** Python values *)

(** Numbers as Python and BSON have them: [int] and [float]. *)
Inductive num :=
  | NInt (z : Z)
  | NFloat (q : Q).

Definition num_val (n : num) : Q :=
  match n with
  | NInt z => inject_Z z
  | NFloat q => q
  end.

(** The values a stored document holds. *)
Inductive value :=
  | VNull
  | VStr (s : string)
  | VInt (z : Z)
  | VFloat (q : Q)
  | VStrs (l : list string)
  | VOid (o : N).

(** A document: a Python dict from field names to values. *)
Abbreviation doc := (gmap string value).

(** Truthiness of an [Optional[str]]: [None] and the empty string are falsy. *)
Definition truthy (s : option string) : bool :=
  match s with
  | Some (String _ _) => true
  | _ => false
  end.

(** ** Case-insensitive regular-expression search

    The filters of [search_properties] use the store's [$regex] operator with
    the request text as the pattern.  The engine is the store's; this model
    covers the patterns made of ordinary characters and the wildcard [.], and
    treats every pattern that uses another metacharacter as one it cannot
    run (see [regex_compile]), although the store runs many of them: what is
    stated about the documents a pattern finds is stated for the patterns
    covered here. *)

Definition is_meta (c : ascii) : bool :=
  existsb (Ascii.eqb c)
    (list_ascii_of_string "\^$.|?*+()[]{}").

Inductive atom :=
  | Lit (c : ascii)
  | AnyChar.

Fixpoint regex_compile (p : string) : option (list atom) :=
  match p with
  | EmptyString => Some []
  | String c p' =>
      if Ascii.eqb c "." then cons AnyChar <$> regex_compile p'
      else if is_meta c then None
      else cons (Lit c) <$> regex_compile p'
  end.

(** ASCII case folding, as option [i] does. *)
Definition to_lower (c : ascii) : ascii :=
  let n := N_of_ascii c in
  if ((65 <=? n) && (n <=? 90))%N then ascii_of_N (n + 32) else c.

Fixpoint lower (s : string) : string :=
  match s with
  | EmptyString => EmptyString
  | String c s' => String (to_lower c) (lower s')
  end.

(** Does option string [o] ask for case-insensitive matching? *)
Definition has_option_i (o : string) : bool :=
  existsb (Ascii.eqb "i") (list_ascii_of_string o).

Definition newline : ascii := "010".

Definition atom_match (ci : bool) (a : atom) (c : ascii) : bool :=
  match a with
  | Lit x => if ci then Ascii.eqb (to_lower x) (to_lower c) else Ascii.eqb x c
  | AnyChar => negb (Ascii.eqb c newline)
  end.

(** The atoms match a prefix of [s]. *)
Fixpoint match_here (ci : bool) (atoms : list atom) (s : string) : bool :=
  match atoms, s with
  | [], _ => true
  | a :: atoms', String c s' => atom_match ci a c && match_here ci atoms' s'
  | _ :: _, EmptyString => false
  end.

(** The atoms match somewhere in [s] (an unanchored search). *)
Fixpoint match_anywhere (ci : bool) (atoms : list atom) (s : string) : bool :=
  match_here ci atoms s ||
  match s with
  | EmptyString => false
  | String _ s' => match_anywhere ci atoms s'
  end.

Definition regex_search (options pattern subject : string) : bool :=
  match regex_compile pattern with
  | Some atoms => match_anywhere (has_option_i options) atoms subject
  | None => false
  end.

(** A text without metacharacters: as a pattern it stands for itself. *)
Definition plain (p : string) : bool :=
  forallb (fun c => negb (is_meta c)) (list_ascii_of_string p).

(** ** Store filters

    The filter documents [search_properties] builds, with the store's
    reading of them.  A filter is a dict; all its entries must hold. *)

(** The condition a filter puts on one field. *)
Inductive cond :=
  | Regex (pattern options : string)   (* {"$regex": pattern, "$options": options} *)
  | ElemMatch (c : cond)               (* {"$elemMatch": c} *)
  | Cmp (ops : gmap string num).       (* {"$gte": a, "$lte": b}, either key optional *)

(** An entry of the top-level filter dict. *)
Inductive clause :=
  | Field (c : cond)                      (* field: condition *)
  | Or (alts : list (gmap string cond)).  (* "$or": [{field: condition}, ...] *)

Abbreviation filter := (gmap string clause).

Definition value_num (v : value) : option Q :=
  match v with
  | VInt z => Some (inject_Z z)
  | VFloat q => Some q
  | _ => None
  end.

(** One comparison operator against a field value; numbers compare by
    value across [int] and [float], anything else does not match. *)
Definition cmp_holds (op : string) (bound : num) (v : value) : bool :=
  match value_num v with
  | Some x =>
      if String.eqb op "$gte" then Qle_bool (num_val bound) x
      else if String.eqb op "$lte" then Qle_bool x (num_val bound)
      else false
  | None => false
  end.

(** The operators of an operator document all hold of [x]. *)
Definition ops_hold (ops : gmap string num) (x : value) : bool :=
  bool_decide (map_Forall (fun op b => cmp_holds op b x = true) ops).

(** [v] is the field's value in the document, [None] when it is missing.
    An operator document without operators is an equality test against the
    empty document, which no value of [value] passes. *)
Fixpoint cond_holds (c : cond) (v : option value) : bool :=
  match c with
  | Regex p o =>
      match v with
      | Some (VStr s) => regex_search o p s
      | Some (VStrs l) => existsb (regex_search o p) l
      | _ => false
      end
  | ElemMatch c' =>
      match v with
      | Some (VStrs l) => existsb (fun s => cond_holds c' (Some (VStr s))) l
      | _ => false
      end
  | Cmp ops =>
      match v with
      | Some x =>
          negb (bool_decide (ops = ∅)) && ops_hold ops x
      | None => false
      end
  end.

Definition fields_hold (m : gmap string cond) (d : doc) : bool :=
  bool_decide (map_Forall (fun k c => cond_holds c (d !! k) = true) m).

Definition clause_holds (k : string) (cl : clause) (d : doc) : bool :=
  match cl with
  | Field c => cond_holds c (d !! k)
  | Or alts => existsb (fun m => fields_hold m d) alts
  end.

(** The document passes the filter: every entry holds (logical AND). *)
Definition matches (filt : filter) (d : doc) : bool :=
  bool_decide (map_Forall (fun k cl => clause_holds k cl d = true) filt).

(** A filter the store can run: every pattern compiles and every comparison
    operator is one of [$gte], [$lte]. *)
Fixpoint cond_valid (c : cond) : bool :=
  match c with
  | Regex p _ => bool_decide (is_Some (regex_compile p))
  | ElemMatch c' => cond_valid c'
  | Cmp ops =>
      bool_decide (map_Forall (fun op _ => op = "$gte" \/ op = "$lte") ops)
  end.

Definition clause_valid (cl : clause) : bool :=
  match cl with
  | Field c => cond_valid c
  | Or alts =>
      forallb (fun m : gmap string cond =>
                 bool_decide (map_Forall (fun _ c => cond_valid c = true) m)) alts
  end.

Definition filter_valid (filt : filter) : bool :=
  bool_decide (map_Forall (fun _ cl => clause_valid cl = true) filt).

(** ** schemas.py

    Each model has an [input] record and a record [t] of the validated
    model.  An [input] is a request body whose fields have the types of the
    model and whose required fields are present; a field with a default may
    be absent.  A body with a missing required field or with a value of
    another type is refused by the framework before the checks below and is
    not a value of [input]: the parsing of types is not part of this
    model. *)

Module Property.
Record input := {
  in_title : string;
  in_description : option string;
  in_price : Q;
  in_city : string;
  in_address : string;
  in_bedrooms : Z;
  in_bathrooms : Q;
  in_area_sqft : Z;
  in_images : option (list string);
  in_tags : option (list string);
  in_coords_lat : option Q;
  in_coords_lng : option Q;
  in_tour_3d_url : option string;
  in_broker_id : option string }.

Record t := {
  title : string;
  description : option string;
  price : Q;
  city : string;
  address : string;
  bedrooms : Z;
  bathrooms : Q;
  area_sqft : Z;
  images : list string;
  tags : list string;
  coords_lat : option Q;
  coords_lng : option Q;
  tour_3d_url : option string;
  broker_id : option string }.
End Property.

Module Broker.
Record input := {
  in_name : string;
  in_title : option (option string);   (* absent, or given (possibly null) *)
  in_avatar_url : option string;
  in_rating : option Q;
  in_reviews_count : option Z;
  in_phone : option string;
  in_email : option string;
  in_badges : option (list string) }.

Record t := {
  name : string;
  title : option string;
  avatar_url : option string;
  rating : Q;
  reviews_count : Z;
  phone : option string;
  email : option string;
  badges : list string }.
End Broker.

Module Booking.
Record t := {
  property_id : string;
  name : string;
  email : string;
  phone : option string;
  preferred_date : string;
  preferred_time : string;
  notes : option string }.
End Booking.

(** The constraints [ge=0] and [le=5] of [Field]: the name of the field
    when the check fails. *)
Definition check_ge_float (field : string) (bound x : Q) : list string :=
  if Qle_bool bound x then [] else [field].

Definition check_le_float (field : string) (bound x : Q) : list string :=
  if Qle_bool x bound then [] else [field].

Definition check_ge_int (field : string) (bound x : Z) : list string :=
  if bound <=? x then [] else [field].

Definition property_errors (i : Property.input) : list string :=
  check_ge_float "price" 0 (Property.in_price i) ++
  check_ge_int "bedrooms" 0 (Property.in_bedrooms i) ++
  check_ge_float "bathrooms" 0 (Property.in_bathrooms i) ++
  check_ge_int "area_sqft" 0 (Property.in_area_sqft i).

(** Building a [Property] from the request body: the validated model, or the
    names of the fields that failed. *)
Definition validate_property (i : Property.input) : list string + Property.t :=
  match property_errors i with
  | [] =>
      inr {| Property.title := Property.in_title i;
             Property.description := Property.in_description i;
             Property.price := Property.in_price i;
             Property.city := Property.in_city i;
             Property.address := Property.in_address i;
             Property.bedrooms := Property.in_bedrooms i;
             Property.bathrooms := Property.in_bathrooms i;
             Property.area_sqft := Property.in_area_sqft i;
             Property.images := default [] (Property.in_images i);
             Property.tags := default [] (Property.in_tags i);
             Property.coords_lat := Property.in_coords_lat i;
             Property.coords_lng := Property.in_coords_lng i;
             Property.tour_3d_url := Property.in_tour_3d_url i;
             Property.broker_id := Property.in_broker_id i |}
  | errs => inl errs
  end.

Definition default_rating : Q := 4.8.

Section EmailStr.
(** [EmailStr] delegates to the email-validator package: [None] for a
    malformed address, otherwise the normalised address that the model
    keeps. *)
Variable validate_email : string -> option string.

Definition check_email (field : string) (e : string) : list string :=
  match validate_email e with
  | Some _ => []
  | None => [field]
  end.

Definition broker_errors (i : Broker.input) : list string :=
  from_option (check_ge_float "rating" 0) [] (Broker.in_rating i) ++
  from_option (check_le_float "rating" 5) [] (Broker.in_rating i) ++
  from_option (check_ge_int "reviews_count" 0) [] (Broker.in_reviews_count i) ++
  from_option (check_email "email") [] (Broker.in_email i).

Definition validate_broker (i : Broker.input) : list string + Broker.t :=
  match broker_errors i with
  | [] =>
      inr {| Broker.name := Broker.in_name i;
             Broker.title := default (Some "Senior Broker") (Broker.in_title i);
             Broker.avatar_url := Broker.in_avatar_url i;
             Broker.rating := default default_rating (Broker.in_rating i);
             Broker.reviews_count := default 0 (Broker.in_reviews_count i);
             Broker.phone := Broker.in_phone i;
             Broker.email := Broker.in_email i ≫= validate_email;
             Broker.badges :=
               default ["Verified"; "Top Rated"] (Broker.in_badges i) |}
  | errs => inl errs
  end.

(** The body of a booking has the fields of the model; only [email] is
    constrained. *)
Definition validate_booking (i : Booking.t) : list string + Booking.t :=
  match validate_email (Booking.email i) with
  | Some e =>
      inr {| Booking.property_id := Booking.property_id i;
             Booking.name := Booking.name i;
             Booking.email := e;
             Booking.phone := Booking.phone i;
             Booking.preferred_date := Booking.preferred_date i;
             Booking.preferred_time := Booking.preferred_time i;
             Booking.notes := Booking.notes i |}
  | None => inl ["email"]
  end.
End EmailStr.

(** ** The document store adapter (database.py) *)

(** What the adapter raises. *)
Inductive exn :=
  | DatabaseUnavailable
  | OperationFailure.

(** Modelled from the spec: the store behind [database.py], which is not
    among the sources.  Each named collection holds its documents in the
    store's natural order, the order of insertion; [next_oid] is the next
    identifier the store assigns. *)
Record store := {
  colls : gmap string (list doc);
  next_oid : N }.

(** The process-wide handle [db]: [None] when the store is not connected. *)
Abbreviation handle := (option store).

Definition collection (st : store) (collection_name : string) : list doc :=
  default [] (colls st !! collection_name).

(** Code that uses the handle: it may raise, and it may change the store. *)
Definition io (A : Type) : Type := handle -> (exn + A) * handle.

#[global] Instance io_ret : MRet io :=
  fun A (a : A) db => (inr a, db).

#[global] Instance io_bind : MBind io :=
  fun A B (k : A -> io B) (m : io A) db =>
    match m db with
    | (inr a, db') => k a db'
    | (inl e, db') => (inl e, db')
    end.

(** Rendering of a store identifier: 24 lowercase hexadecimal digits. *)
Definition hex_digit (n : N) : ascii :=
  nth (N.to_nat n) (list_ascii_of_string "0123456789abcdef") "0"%char.

Fixpoint hex_digits (k : nat) (n : N) (acc : string) : string :=
  match k with
  | O => acc
  | S k' => hex_digits k' (n / 16)%N (String (hex_digit (n mod 16)%N) acc)
  end.

Definition oid_str (o : N) : string := hex_digits 24 o "".

(** The models [create_document] accepts. *)
Inductive record :=
  | RProperty (p : Property.t)
  | RBroker (b : Broker.t)
  | RBooking (b : Booking.t).

Definition opt_str (o : option string) : value := from_option VStr VNull o.
Definition opt_float (o : option Q) : value := from_option VFloat VNull o.

(** Modelled from the spec: the serialisation of a validated record to a
    store document, one entry per field of the model. *)
Definition model_dump (r : record) : doc :=
  match r with
  | RProperty p =>
      <["title" := VStr (Property.title p)]> (
      <["description" := opt_str (Property.description p)]> (
      <["price" := VFloat (Property.price p)]> (
      <["city" := VStr (Property.city p)]> (
      <["address" := VStr (Property.address p)]> (
      <["bedrooms" := VInt (Property.bedrooms p)]> (
      <["bathrooms" := VFloat (Property.bathrooms p)]> (
      <["area_sqft" := VInt (Property.area_sqft p)]> (
      <["images" := VStrs (Property.images p)]> (
      <["tags" := VStrs (Property.tags p)]> (
      <["coords_lat" := opt_float (Property.coords_lat p)]> (
      <["coords_lng" := opt_float (Property.coords_lng p)]> (
      <["tour_3d_url" := opt_str (Property.tour_3d_url p)]> (
      <["broker_id" := opt_str (Property.broker_id p)]> ∅)))))))))))))
  | RBroker b =>
      <["name" := VStr (Broker.name b)]> (
      <["title" := opt_str (Broker.title b)]> (
      <["avatar_url" := opt_str (Broker.avatar_url b)]> (
      <["rating" := VFloat (Broker.rating b)]> (
      <["reviews_count" := VInt (Broker.reviews_count b)]> (
      <["phone" := opt_str (Broker.phone b)]> (
      <["email" := opt_str (Broker.email b)]> (
      <["badges" := VStrs (Broker.badges b)]> ∅)))))))
  | RBooking b =>
      <["property_id" := VStr (Booking.property_id b)]> (
      <["name" := VStr (Booking.name b)]> (
      <["email" := VStr (Booking.email b)]> (
      <["phone" := opt_str (Booking.phone b)]> (
      <["preferred_date" := VStr (Booking.preferred_date b)]> (
      <["preferred_time" := VStr (Booking.preferred_time b)]> (
      <["notes" := opt_str (Booking.notes b)]> ∅))))))
  end.

(** Modelled from the spec: the insertion of a document into a collection of
    the store, which assigns it the next identifier as its [_id] and appends
    it to the collection. *)
Definition insert_one (collection_name : string) (d : doc) (st : store) : store :=
  {| colls :=
       <[collection_name :=
           (collection st collection_name ++ [<["_id" := VOid (next_oid st)]> d])%list]>
         (colls st);
     next_oid := N.succ (next_oid st) |}.

(** Modelled from the spec: [create_document] of [database.py].  It
    serialises the record, inserts it under a newly assigned identifier and
    returns that identifier as a string; it fails with a storage error when
    the store is not connected. *)
Definition create_document (collection_name : string) (data : record) : io string :=
  fun db =>
    match db with
    | None => (inl DatabaseUnavailable, db)
    | Some st =>
        (inr (oid_str (next_oid st)),
         Some (insert_one collection_name (model_dump data) st))
    end.

(** Modelled from the spec: [get_documents] of [database.py].  It returns
    the documents of the collection that pass the filter, in the store's
    order, at most [limit] of them; without a filter every document passes,
    without a limit all are returned.  It fails with a storage error when the
    store is not connected or cannot run the filter. *)
Definition get_documents (collection_name : string)
    (filter_dict : option filter) (limit : option nat) : io (list doc) :=
  fun db =>
    match db with
    | None => (inl DatabaseUnavailable, db)
    | Some st =>
        let filt := default ∅ filter_dict in
        if filter_valid filt then
          let found := List.filter (matches filt) (collection st collection_name) in
          (inr (from_option (fun n => take n found) found limit), db)
        else (inl OperationFailure, db)
    end.

(** ** main.py: the API layer *)

(** What a route answers: a body, the framework's rejection of a body that
    fails validation (HTTP 422, with the failing fields), or an
    [HTTPException]. *)
Inductive response (A : Type) :=
  | OK (body : A)
  | Unprocessable (errors : list string)
  | HTTPException (status_code : Z) (detail : exn).
Arguments OK {A} body.
Arguments Unprocessable {A} errors.
Arguments HTTPException {A} status_code detail.

Definition handler (A : Type) : Type := handle -> response A * handle.

(** [try: ... except Exception as e: raise HTTPException(500, str(e))] *)
Definition try_except {A} (body : io A) : handler A :=
  fun db =>
    match body db with
    | (inr a, db') => (OK a, db')
    | (inl e, db') => (HTTPException 500 e, db')
    end.

(** The framework in front of a handler with a body parameter: a body that
    fails validation is answered with 422 and the handler does not run. *)
Definition with_body {I P A} (validate : I -> list string + P)
    (route : P -> handler A) (body : I) : handler A :=
  fun db =>
    match validate body with
    | inr payload => route payload db
    | inl errs => (Unprocessable errs, db)
    end.

(** The body [{"items": docs}] of a listing. *)
Record listing := { items : list doc }.

Module PropertyQuery.
Record t := {
  q : option string;
  city : option string;
  min_price : option Q;
  max_price : option Q;
  bedrooms : option Z }.

(** The query with every field left out. *)
Definition empty : t :=
  {| q := None; city := None; min_price := None; max_price := None;
     bedrooms := None |}.
End PropertyQuery.

(** [{"$regex": text, "$options": "i"}] *)
Definition regex_i (text : string) : cond := Regex text "i".

(** The filter of [search_properties], lines 69 to 86.  [is not None] is a
    match on the option; [if query.city:] and [if price_cond:] are Python
    truthiness. *)
Definition search_filter (query : PropertyQuery.t) : filter :=
  let filt : filter := ∅ in
  let filt :=
    if truthy (PropertyQuery.city query) then
      <["city" := Field (regex_i (default "" (PropertyQuery.city query)))]> filt
    else filt in
  let filt :=
    if truthy (PropertyQuery.q query) then
      let q := default "" (PropertyQuery.q query) in
      <["$or" := Or [ {["title" := regex_i q]};
                      {["description" := regex_i q]};
                      {["tags" := ElemMatch (regex_i q)]} ]]> filt
    else filt in
  let price_cond : gmap string num := ∅ in
  let price_cond :=
    match PropertyQuery.min_price query with
    | Some m => <["$gte" := NFloat m]> price_cond
    | None => price_cond
    end in
  let price_cond :=
    match PropertyQuery.max_price query with
    | Some m => <["$lte" := NFloat m]> price_cond
    | None => price_cond
    end in
  let filt :=
    if bool_decide (price_cond = ∅) then filt
    else <["price" := Field (Cmp price_cond)]> filt in
  let filt :=
    match PropertyQuery.bedrooms query with
    | Some b => <["bedrooms" := Field (Cmp {["$gte" := NInt b]})]> filt
    | None => filt
    end in
  filt.

Section Api.
(** Python's [str] on the values other than strings and store identifiers;
    the code applies [str] to the [_id] of a document only. *)
Variable py_repr : value -> string.

Definition py_str (v : value) : string :=
  match v with
  | VStr s => s
  | VOid o => oid_str o
  | _ => py_repr v
  end.

(** [d["id"] = str(d.pop("_id", ""))] *)
Definition expose_id (d : doc) : doc :=
  let popped := default (VStr "") (d !! "_id") in
  <["id" := VStr (py_str popped)]> (delete "_id" d).

(** [for d in docs: ...; return {"items": docs}] *)
Definition as_items (docs : list doc) : listing :=
  {| items := map expose_id docs |}.

(** POST /api/properties *)
Definition create_property (payload : Property.t) : handler doc :=
  try_except (
    inserted_id ← create_document "property" (RProperty payload);
    mret {["id" := VStr inserted_id]}).

(** POST /api/properties/search, for a body that parses as a
    [PropertyQuery]; the framework refuses any other body before the handler
    runs, and that parsing is not part of this model. *)
Definition search_properties (query : PropertyQuery.t) : handler listing :=
  let filt := search_filter query in
  try_except (
    docs ← get_documents "property" (Some filt) (Some 50%nat);
    mret (as_items docs)).

(** The two predefined listings of [seed_sample_properties]. *)
Definition skyline_penthouse : Property.t :=
  {| Property.title := "Skyline Penthouse";
     Property.description := Some "Panoramic city views, floor-to-ceiling glass.";
     Property.price := 1850000;
     Property.city := "New York";
     Property.address := "350 5th Ave";
     Property.bedrooms := 3;
     Property.bathrooms := 3;
     Property.area_sqft := 2200;
     Property.images := [];
     Property.tags := ["luxury"; "cityscape"];
     Property.coords_lat := Some 40.7484%Q;
     Property.coords_lng := Some (-73.9857)%Q;
     Property.tour_3d_url := Some "https://my.matterport.com/show/?m=example";
     Property.broker_id := None |}.

Definition marina_bay_residence : Property.t :=
  {| Property.title := "Marina Bay Residence";
     Property.description := Some "Waterfront living with private balcony.";
     Property.price := 980000;
     Property.city := "San Francisco";
     Property.address := "1 Embarcadero";
     Property.bedrooms := 2;
     Property.bathrooms := 2;
     Property.area_sqft := 1450;
     Property.images := [];
     Property.tags := ["waterfront"; "premium"];
     Property.coords_lat := Some 37.7955%Q;
     Property.coords_lng := Some (-122.3937)%Q;
     Property.tour_3d_url := None;
     Property.broker_id := None |}.

Definition samples : list Property.t :=
  [skyline_penthouse; marina_bay_residence].

(** [for s in samples: create_document("property", s)] *)
Fixpoint create_all (l : list Property.t) : io unit :=
  match l with
  | [] => mret tt
  | s :: l' => _ ← create_document "property" (RProperty s); create_all l'
  end.

(** GET /api/properties/sample *)
Definition seed_sample_properties : handler listing :=
  try_except (
    existing ← get_documents "property" (Some ∅) (Some 1%nat);
    _ ← match existing with
        | [] => create_all samples
        | _ :: _ => mret tt
        end;
    docs ← get_documents "property" None None;
    mret (as_items docs)).

(** POST /api/brokers *)
Definition create_broker (payload : Broker.t) : handler doc :=
  try_except (
    inserted_id ← create_document "broker" (RBroker payload);
    mret {["id" := VStr inserted_id]}).

(** GET /api/brokers *)
Definition list_brokers : handler listing :=
  try_except (
    docs ← get_documents "broker" (Some ∅) (Some 50%nat);
    mret (as_items docs)).

(** POST /api/bookings *)
Definition create_booking (payload : Booking.t) : handler doc :=
  try_except (
    inserted_id ← create_document "booking" (RBooking payload);
    mret (<["id" := VStr inserted_id]> {["status" := VStr "confirmed"]})).

(** The routes that take a body, as the framework serves them. *)
Variable validate_email : string -> option string.

Definition post_property : Property.input -> handler doc :=
  with_body validate_property create_property.

Definition post_broker : Broker.input -> handler doc :=
  with_body (validate_broker validate_email) create_broker.

Definition post_booking : Booking.t -> handler doc :=
  with_body (validate_booking validate_email) create_booking.
End Api.

(** ** main.py: the diagnostics route *)

(** A byte that continues a character in UTF-8 (binary 10xxxxxx). *)
Definition is_continuation (c : ascii) : bool :=
  let n := N_of_ascii c in ((128 <=? n) && (n <? 192))%N.

(** The number of characters of a text: its bytes that start one. *)
Fixpoint char_length (s : string) : nat :=
  match s with
  | EmptyString => O
  | String c s' =>
      if is_continuation c then char_length s' else S (char_length s')
  end.

(** [s[:n]]: the first [n] characters of a text, each with all its bytes. *)
Fixpoint take_chars (n : nat) (s : string) : string :=
  match s with
  | EmptyString => EmptyString
  | String c s' =>
      if is_continuation c then String c (take_chars n s')
      else
        match n with
        | O => EmptyString
        | S n' => String c (take_chars n' s')
        end
  end.

(** What [test_database] uses of the handle [db]: its name, and the listing
    of its collections, which either raises (the message of the exception)
    or returns the names. *)
Record database := {
  db_name : option string;
  list_collection_names : string + list string }.

(** The environment of [test_database]: the handle and the variable
    [DATABASE_URL]. *)
Record environ := {
  env_db : option database;
  env_database_url : option string }.

(** GET /test.  The response is a dict whose entries are assigned one by
    one.  Neither [os.getenv] nor [getattr] with a default raises, so the
    handler of the outer [try] has nothing to catch; the inner one catches
    what the listing raises.  [str(e)[:50]] is [take_chars 50 e]. *)
Definition test_database (env : environ) : doc :=
  let response : doc :=
    <["backend" := VStr "✅ Running"]> (
    <["database" := VStr "❌ Not Available"]> (
    <["database_url" := VNull]> (
    <["database_name" := VNull]> (
    <["connection_status" := VStr "Not Connected"]> (
    <["collections" := VStrs []]> ∅))))) in
  match env_db env with
  | Some db =>
      let response := <["database" := VStr "✅ Connected & Working"]> response in
      let response :=
        <["database_url" :=
            VStr (if truthy (env_database_url env) then "✅ Set" else "❌ Not Set")]>
          response in
      let response :=
        <["database_name" :=
            VStr (if truthy (db_name db) then default "" (db_name db)
                  else "✅ Connected")]>
          response in
      let response := <["connection_status" := VStr "Connected"]> response in
      match list_collection_names db with
      | inr collections =>
          <["collections" := VStrs (take 10 collections)]> response
      | inl e =>
          <["database" := VStr ("⚠️ Connected but Error: " +:+ take_chars 50 e)]>
            response
      end
  | None => <["database" := VStr "⚠️ Available but not initialized"]> response
  end.

(** ** Vocabulary of the statements *)

(** [p] occurs in [s] when letter case is ignored: the substring match of
    the specification. *)
Definition ci_substring (p s : string) : Prop :=
  exists pre post, lower s = pre +:+ lower p +:+ post.

(** A request text read literally, character by character. *)
Definition lits (p : string) : list atom := map Lit (list_ascii_of_string p).

(** The document the store holds for property [p] under identifier [o]. *)
Definition stored_property (p : Property.t) (o : N) : doc :=
  <["_id" := VOid o]> (model_dump (RProperty p)).

(** The text conditions of a query alone, and its numeric bounds alone. *)
Definition text_part (query : PropertyQuery.t) : PropertyQuery.t :=
  {| PropertyQuery.q := PropertyQuery.q query;
     PropertyQuery.city := PropertyQuery.city query;
     PropertyQuery.min_price := None;
     PropertyQuery.max_price := None;
     PropertyQuery.bedrooms := None |}.

Definition bounds_part (query : PropertyQuery.t) : PropertyQuery.t :=
  {| PropertyQuery.q := None;
     PropertyQuery.city := None;
     PropertyQuery.min_price := PropertyQuery.min_price query;
     PropertyQuery.max_price := PropertyQuery.max_price query;
     PropertyQuery.bedrooms := PropertyQuery.bedrooms query |}.

Definition with_city (c : option string) (query : PropertyQuery.t) : PropertyQuery.t :=
  {| PropertyQuery.q := PropertyQuery.q query;
     PropertyQuery.city := c;
     PropertyQuery.min_price := PropertyQuery.min_price query;
     PropertyQuery.max_price := PropertyQuery.max_price query;
     PropertyQuery.bedrooms := PropertyQuery.bedrooms query |}.

Definition with_q (t : option string) (query : PropertyQuery.t) : PropertyQuery.t :=
  {| PropertyQuery.q := t;
     PropertyQuery.city := PropertyQuery.city query;
     PropertyQuery.min_price := PropertyQuery.min_price query;
     PropertyQuery.max_price := PropertyQuery.max_price query;
     PropertyQuery.bedrooms := PropertyQuery.bedrooms query |}.

(** A listing whose searched fields hold no dot, for the examples. *)
Definition loft : Property.t :=
  {| Property.title := "Loft";
     Property.description := None;
     Property.price := 450000;
     Property.city := "Austin";
     Property.address := "12 Main St";
     Property.bedrooms := 1;
     Property.bathrooms := 1;
     Property.area_sqft := 700;
     Property.images := [];
     Property.tags := ["quiet"];
     Property.coords_lat := None;
     Property.coords_lng := None;
     Property.tour_3d_url := None;
     Property.broker_id := None |}.

(** The documents of a collection behind a handle. *)
Definition handle_collection (db : handle) (collection_name : string) : list doc :=
  from_option (fun st => collection st collection_name) [] db.

(** A connected store without documents, and the store after [n] listings
    were created in it through [create_property]. *)
Definition empty_store : store := {| colls := ∅; next_oid := 0 |}.

Definition store_after (n : nat) : handle :=
  Nat.iter n (fun db => snd (create_property loft db)) (Some empty_store).

(** The request body that carries the fields of [p]. *)
Definition body_of (p : Property.t) : Property.input :=
  {| Property.in_title := Property.title p;
     Property.in_description := Property.description p;
     Property.in_price := Property.price p;
     Property.in_city := Property.city p;
     Property.in_address := Property.address p;
     Property.in_bedrooms := Property.bedrooms p;
     Property.in_bathrooms := Property.bathrooms p;
     Property.in_area_sqft := Property.area_sqft p;
     Property.in_images := Some (Property.images p);
     Property.in_tags := Some (Property.tags p);
     Property.in_coords_lat := Property.coords_lat p;
     Property.in_coords_lng := Property.coords_lng p;
     Property.in_tour_3d_url := Property.tour_3d_url p;
     Property.in_broker_id := Property.broker_id p |}.

(** The model a body that passes validation yields: every field as sent,
    the two lists empty when left out. *)
Definition same_fields (i : Property.input) (p : Property.t) : Prop :=
  Property.title p = Property.in_title i /\
  Property.description p = Property.in_description i /\
  Property.price p = Property.in_price i /\
  Property.city p = Property.in_city i /\
  Property.address p = Property.in_address i /\
  Property.bedrooms p = Property.in_bedrooms i /\
  Property.bathrooms p = Property.in_bathrooms i /\
  Property.area_sqft p = Property.in_area_sqft i /\
  Property.images p = default [] (Property.in_images i) /\
  Property.tags p = default [] (Property.in_tags i) /\
  Property.coords_lat p = Property.in_coords_lat i /\
  Property.coords_lng p = Property.in_coords_lng i /\
  Property.tour_3d_url p = Property.in_tour_3d_url i /\
  Property.broker_id p = Property.in_broker_id i.

(** The title of a listed document. *)
Definition title_of (item : doc) : option string :=
  match item !! "title" with
  | Some (VStr s) => Some s
  | _ => None
  end.

(** The titles a response lists; an error response lists none. *)
Definition listed_titles (r : response listing) : list (option string) :=
  match r with
  | OK body => title_of <$> items body
  | _ => []
  end.

(** A rendering for the examples, none of which applies [str] to a value
    other than a store identifier. *)
Definition no_repr : value -> string := fun _ => "".

(** The store after the two sample listings were inserted. *)
Definition seeded (st : store) : store :=
  insert_one "property" (model_dump (RProperty marina_bay_residence))
    (insert_one "property" (model_dump (RProperty skyline_penthouse)) st).

(** [body] lists documents of [coll], each with [_id] removed and [id] set
    to the string of what [_id] held, every other field as stored. *)
Definition normalised (py_repr : value -> string) (coll : list doc) (body : listing) : Prop :=
  forall item, item ∈ items body ->
    item !! "_id" = None /\
    exists d, d ∈ coll /\
      item !! "id" = Some (VStr (py_str py_repr (default (VStr "") (d !! "_id")))) /\
      forall k, k <> "id" -> k <> "_id" -> item !! k = d !! k.

(** The number of items of a response; an error response carries none. *)
Definition item_count (r : response listing) : nat :=
  match r with
  | OK body => length (items body)
  | _ => 0%nat
  end.

(** The text used as a pattern, when the field is given and not empty. *)
Definition pattern_of (s : option string) : option string :=
  if truthy s then s else None.

(** An optional bound on a field: no bound always holds; a bound holds of a
    field that is present and compares as the operator says. *)
Definition bound_holds (op : string) (bound : option num) (v : option value) : bool :=
  match bound, v with
  | None, _ => true
  | Some b, Some x => cmp_holds op b x
  | Some _, None => false
  end.

(** The free-text condition: the pattern is found in the title, or in the
    description, or in some element of the tags. *)
Definition text_found (t : string) (d : doc) : bool :=
  cond_holds (regex_i t) (d !! "title") ||
  cond_holds (regex_i t) (d !! "description") ||
  cond_holds (ElemMatch (regex_i t)) (d !! "tags").



(** * Properties *)

(** ** The regular-expression fragment *)

Lemma dot_is_meta c : Ascii.eqb c "." = true -> is_meta c = true.
Proof. intros H%Ascii.eqb_eq. subst c. reflexivity. Qed.

Lemma regex_compile_plain p : plain p = true -> regex_compile p = Some (lits p).
Proof.
  unfold plain, lits. induction p as [|c p IH]; simpl; [reflexivity|].
  intros [Hc Hp]%andb_true_iff.
  apply negb_true_iff in Hc.
  destruct (Ascii.eqb c ".") eqn:Hdot.
  - apply dot_is_meta in Hdot. congruence.
  - rewrite Hc, (IH Hp). reflexivity.
Qed.

Lemma match_here_lits p : forall s,
  match_here true (lits p) s = true <-> exists post, lower s = lower p +:+ post.
Proof.
  unfold lits. induction p as [|c p IH]; intros s; simpl.
  - split; [intros _; exists (lower s); reflexivity | reflexivity].
  - destruct s as [|c' s]; simpl.
    + split; [discriminate | intros [post H]; discriminate].
    + rewrite andb_true_iff, Ascii.eqb_eq, IH. split.
      * intros [Hc [post Hs]]. exists post. rewrite Hc, Hs. reflexivity.
      * intros [post H]. injection H as Hc Hs. split; [congruence | eauto].
Qed.

Lemma match_anywhere_lits p : forall s,
  match_anywhere true (lits p) s = true <-> ci_substring p s.
Proof.
  unfold ci_substring. induction s as [|c s IH]; simpl.
  - rewrite orb_false_r, match_here_lits. simpl. split.
    + intros [post H]. exists "", post. exact H.
    + intros [[|x pre] [post H]]; [eauto | discriminate].
  - rewrite orb_true_iff, match_here_lits, IH. simpl. split.
    + intros [[post H] | [pre [post H]]].
      * exists "", post. exact H.
      * exists (String (to_lower c) pre), post. simpl. rewrite H. reflexivity.
    + intros [[|x pre] [post H]].
      * left. exists post. exact H.
      * right. simpl in H. injection H as _ H. eauto.
Qed.

(** On a text without metacharacters the search is the substring match. *)
Lemma regex_search_plain p s :
  plain p = true -> regex_search "i" p s = true <-> ci_substring p s.
Proof.
  intros Hp. unfold regex_search. rewrite (regex_compile_plain _ Hp).
  apply match_anywhere_lits.
Qed.

Lemma ci_substring_empty s : ci_substring "" s.
Proof. exists "", (lower s). reflexivity. Qed.

(** ** Reading a filter *)

Lemma matches_empty d : matches ∅ d = true.
Proof. apply bool_decide_eq_true_2, map_Forall_empty. Qed.

Lemma matches_insert (filt : filter) k cl d :
  filt !! k = None ->
  matches (<[k := cl]> filt) d = clause_holds k cl d && matches filt d.
Proof.
  intros Hk. unfold matches. apply eq_true_iff_eq.
  rewrite andb_true_iff, !bool_decide_eq_true, map_Forall_insert by exact Hk.
  reflexivity.
Qed.

Lemma fields_hold_singleton k c d :
  fields_hold {[k := c]} d = cond_holds c (d !! k).
Proof.
  unfold fields_hold. apply eq_true_iff_eq.
  rewrite bool_decide_eq_true, map_Forall_singleton. reflexivity.
Qed.

Lemma insert_not_empty (ops : gmap string num) k b :
  bool_decide (<[k := b]> ops = ∅) = false.
Proof. apply bool_decide_eq_false_2, insert_non_empty. Qed.

Lemma empty_is_empty : bool_decide ((∅ : gmap string num) = ∅) = true.
Proof. apply bool_decide_eq_true_2. reflexivity. Qed.

Lemma ops_hold_empty x : ops_hold ∅ x = true.
Proof. apply bool_decide_eq_true_2, map_Forall_empty. Qed.

Lemma ops_hold_insert ops op b x :
  ops !! op = None ->
  ops_hold (<[op := b]> ops) x = cmp_holds op b x && ops_hold ops x.
Proof.
  intros Hk. unfold ops_hold. apply eq_true_iff_eq.
  rewrite andb_true_iff, !bool_decide_eq_true, map_Forall_insert by exact Hk.
  reflexivity.
Qed.

Lemma cond_holds_cmp1 op b v :
  cond_holds (Cmp (<[op := b]> ∅)) v = bound_holds op (Some b) v.
Proof.
  destruct v as [x|]; simpl; [|reflexivity].
  rewrite insert_not_empty, ops_hold_insert, ops_hold_empty
    by apply lookup_empty.
  simpl. apply andb_true_r.
Qed.

Lemma cond_holds_cmp2 a b v :
  cond_holds (Cmp (<["$lte" := b]> (<["$gte" := a]> ∅))) v =
  bound_holds "$gte" (Some a) v && bound_holds "$lte" (Some b) v.
Proof.
  destruct v as [x|]; simpl; [|reflexivity].
  rewrite insert_not_empty, !ops_hold_insert, ops_hold_empty
    by (rewrite ?lookup_insert_ne by done; apply lookup_empty).
  simpl. rewrite andb_true_r. apply andb_comm.
Qed.

Lemma matches_search_filter query d :
  matches (search_filter query) d = true <->
    from_option (fun c => cond_holds (regex_i c) (d !! "city")) true
      (pattern_of (PropertyQuery.city query)) = true /\
    from_option (fun t => text_found t d) true
      (pattern_of (PropertyQuery.q query)) = true /\
    bound_holds "$gte" (NFloat <$> PropertyQuery.min_price query) (d !! "price") = true /\
    bound_holds "$lte" (NFloat <$> PropertyQuery.max_price query) (d !! "price") = true /\
    bound_holds "$gte" (NInt <$> PropertyQuery.bedrooms query) (d !! "bedrooms") = true.
Proof.
  destruct query as [q c mn mx bd].
  unfold search_filter, pattern_of, text_found; simpl.
  destruct c as [[|c0 c]|], q as [[|q0 q]|], mn as [mn|], mx as [mx|], bd as [bd|];
    simpl; rewrite ?insert_not_empty, ?empty_is_empty.
  all: rewrite ?matches_insert, ?matches_empty
         by (rewrite ?lookup_insert_ne by done; apply lookup_empty).
  all: unfold clause_holds, existsb;
       rewrite ?fields_hold_singleton, <- ?insert_empty,
         ?cond_holds_cmp1, ?cond_holds_cmp2.
  all: rewrite ?andb_true_iff, ?orb_true_iff, ?orb_false_r, ?andb_true_r.
  all: simpl; intuition congruence.
Qed.

(** ** Stored property documents *)

Lemma stored_property_fields p o :
  let d := stored_property p o in
  d !! "_id" = Some (VOid o) /\
  d !! "city" = Some (VStr (Property.city p)) /\
  d !! "title" = Some (VStr (Property.title p)) /\
  d !! "description" = Some (opt_str (Property.description p)) /\
  d !! "tags" = Some (VStrs (Property.tags p)) /\
  d !! "price" = Some (VFloat (Property.price p)) /\
  d !! "bedrooms" = Some (VInt (Property.bedrooms p)).
Proof. unfold stored_property. simpl. repeat split; by simplify_map_eq. Qed.

Lemma existsb_search t (l : list string) :
  existsb (regex_search "i" t) l = true <->
  exists tag, tag ∈ l /\ regex_search "i" t tag = true.
Proof.
  rewrite existsb_exists. split; intros [tag [H1 H2]]; exists tag; split;
    try assumption; by apply list_elem_of_In.
Qed.

Lemma text_found_stored t p o :
  text_found t (stored_property p o) = true <->
    regex_search "i" t (Property.title p) = true \/
    (exists ds, Property.description p = Some ds /\ regex_search "i" t ds = true) \/
    (exists tag, tag ∈ Property.tags p /\ regex_search "i" t tag = true).
Proof.
  destruct (stored_property_fields p o) as (_ & _ & Ht & Hd & Hg & _).
  unfold text_found. rewrite Ht, Hd, Hg, !orb_true_iff. simpl.
  change (fun s => regex_search "i" t s) with (regex_search "i" t).
  rewrite existsb_search.
  destruct (Property.description p) as [ds|]; simpl.
  - split; [intros [[H|H]|H]; eauto | intros [H|[(ds' & [= <-] & H)|H]]; auto].
  - split; [intros [[H|H]|H]; eauto; discriminate
           | intros [H|[(ds' & [=] & _)|H]]; auto].
Qed.

Lemma bounds_stored query p o :
  let d := stored_property p o in
  bound_holds "$gte" (NFloat <$> PropertyQuery.min_price query) (d !! "price") = true /\
  bound_holds "$lte" (NFloat <$> PropertyQuery.max_price query) (d !! "price") = true /\
  bound_holds "$gte" (NInt <$> PropertyQuery.bedrooms query) (d !! "bedrooms") = true
  <->
  (forall m, PropertyQuery.min_price query = Some m -> (m <= Property.price p)%Q) /\
  (forall m, PropertyQuery.max_price query = Some m -> (Property.price p <= m)%Q) /\
  (forall b, PropertyQuery.bedrooms query = Some b -> b <= Property.bedrooms p).
Proof.
  destruct (stored_property_fields p o) as (_ & _ & _ & _ & _ & Hp & Hb).
  simpl. rewrite Hp, Hb.
  destruct query as [q c [mn|] [mx|] [bd|]]; simpl; unfold cmp_holds; simpl;
    rewrite ?Qle_bool_iff, <- ?Zle_Qle.
  all: split;
    [ intros (H1 & H2 & H3); repeat split; intros ? [=]; subst; assumption
    | intros (H1 & H2 & H3); repeat split; auto ].
Qed.

(** ** The filter of a search *)

Lemma city_condition (s : option string) (subject : string) :
  from_option plain true s = true ->
  from_option (fun c => cond_holds (regex_i c) (Some (VStr subject))) true
    (pattern_of s) = true <->
  (forall c, s = Some c -> ci_substring c subject).
Proof.
  intros Hp. destruct s as [[|c0 c]|]; simpl in *.
  - split; [intros _ c [= <-]; apply ci_substring_empty | reflexivity].
  - rewrite (regex_search_plain _ _ Hp). split; [intros H c' [= <-]; exact H | auto].
  - split; [intros _ c [=] | reflexivity].
Qed.

Lemma text_condition (s : option string) p o :
  from_option plain true s = true ->
  from_option (fun t => text_found t (stored_property p o)) true (pattern_of s) = true <->
  (forall t, s = Some t ->
     ci_substring t (Property.title p) \/
     (exists ds, Property.description p = Some ds /\ ci_substring t ds) \/
     (exists tag, tag ∈ Property.tags p /\ ci_substring t tag)).
Proof.
  intros Hp. destruct s as [[|c0 c]|]; simpl in *.
  - split; [intros _ t [= <-]; left; apply ci_substring_empty | reflexivity].
  - rewrite text_found_stored.
    setoid_rewrite (regex_search_plain (String c0 c) _ Hp).
    split; [intros H t [= <-]; exact H | auto].
  - split; [intros _ t [=] | reflexivity].
Qed.

(** The entries of the filter, key by key. *)
Lemma search_filter_lookup query :
  search_filter query !! "city" =
    (fun c => Field (Regex c "i")) <$> pattern_of (PropertyQuery.city query) /\
  search_filter query !! "$or" =
    (fun t => Or [ {["title" := Regex t "i"]};
                   {["description" := Regex t "i"]};
                   {["tags" := ElemMatch (Regex t "i")]} ])
      <$> pattern_of (PropertyQuery.q query) /\
  search_filter query !! "price" =
    match PropertyQuery.min_price query, PropertyQuery.max_price query with
    | Some lo, Some hi =>
        Some (Field (Cmp (<["$lte" := NFloat hi]> {["$gte" := NFloat lo]})))
    | Some lo, None => Some (Field (Cmp {["$gte" := NFloat lo]}))
    | None, Some hi => Some (Field (Cmp {["$lte" := NFloat hi]}))
    | None, None => None
    end /\
  search_filter query !! "bedrooms" =
    (fun b => Field (Cmp {["$gte" := NInt b]})) <$> PropertyQuery.bedrooms query /\
  forall k, k <> "city" -> k <> "$or" -> k <> "price" -> k <> "bedrooms" ->
    search_filter query !! k = None.
Proof.
  destruct query as [q c mn mx bd]. unfold search_filter, pattern_of; simpl.
  destruct c as [[|c0 c]|], q as [[|q0 q]|], mn as [mn|], mx as [mx|], bd as [bd|];
    simpl; rewrite ?insert_not_empty, ?empty_is_empty.
  all: do 4 (split; [by simplify_map_eq|]).
  all: intros k H1 H2 H3 H4; rewrite ?lookup_insert_ne by congruence;
       apply lookup_empty.
Qed.

(** C1 (amended): the filter of a search is the conjunction of the conditions
    of the fields that are given and, for the two texts, not empty.  The city
    text and the free-text term are handed to the store as case-insensitive
    regular-expression patterns: on [city], and in a disjunction over
    [title], [description] and the elements of [tags].  For texts without
    metacharacters each of these searches is the case-insensitive substring
    match. *)
Theorem search_filter_text_conditions :
  (forall query,
     search_filter query !! "city" =
       (fun c => Field (Regex c "i")) <$> pattern_of (PropertyQuery.city query)) /\
  (forall query,
     search_filter query !! "$or" =
       (fun t => Or [ {["title" := Regex t "i"]};
                      {["description" := Regex t "i"]};
                      {["tags" := ElemMatch (Regex t "i")]} ])
         <$> pattern_of (PropertyQuery.q query)) /\
  (forall query p o,
     from_option plain true (PropertyQuery.city query) = true ->
     from_option plain true (PropertyQuery.q query) = true ->
     matches (search_filter query) (stored_property p o) = true <->
       (forall c, PropertyQuery.city query = Some c ->
          ci_substring c (Property.city p)) /\
       (forall t, PropertyQuery.q query = Some t ->
          ci_substring t (Property.title p) \/
          (exists ds, Property.description p = Some ds /\ ci_substring t ds) \/
          (exists tag, tag ∈ Property.tags p /\ ci_substring t tag)) /\
       matches (search_filter (bounds_part query)) (stored_property p o) = true).
Proof.
  split; [|split].
  - intros query. apply (search_filter_lookup query).
  - intros query. apply (search_filter_lookup query).
  - intros query p o Hc Hq.
    rewrite !matches_search_filter.
    destruct (stored_property_fields p o) as (_ & Hcity & _).
    rewrite Hcity, (city_condition _ _ Hc), (text_condition _ p o Hq).
    simpl. intuition.
Qed.

Lemma search_filter_text_conditions_witness :
  let query := with_city (Some "new york") (with_q (Some "LUX") PropertyQuery.empty) in
  matches (search_filter query) (stored_property skyline_penthouse 7) = true <->
    (forall c, PropertyQuery.city query = Some c ->
       ci_substring c (Property.city skyline_penthouse)) /\
    (forall t, PropertyQuery.q query = Some t ->
       ci_substring t (Property.title skyline_penthouse) \/
       (exists ds, Property.description skyline_penthouse = Some ds /\
                   ci_substring t ds) \/
       (exists tag, tag ∈ Property.tags skyline_penthouse /\ ci_substring t tag)) /\
    matches (search_filter (bounds_part query))
      (stored_property skyline_penthouse 7) = true.
Proof.
  apply (proj2 (proj2 search_filter_text_conditions)); reflexivity.
Defined.

(** C1 as stated fails: the free-text term [.] is run as a pattern and finds
    a listing none of whose title, description and tags contains a dot; and a
    city given as the empty text puts no condition in the filter. *)
Lemma search_text_is_a_pattern :
  let query := with_q (Some ".") PropertyQuery.empty in
  (PropertyQuery.q query = Some "." /\
   matches (search_filter query) (stored_property loft 1) = true /\
   ~ (ci_substring "." (Property.title loft) \/
      (exists ds, Property.description loft = Some ds /\ ci_substring "." ds) \/
      (exists tag, tag ∈ Property.tags loft /\ ci_substring "." tag))) /\
  search_filter (with_city (Some "") PropertyQuery.empty) !! "city" = None.
Proof.
  split; [split; [reflexivity | split] |].
  - vm_compute. reflexivity.
  - intros [H | [(ds & [=] & _) | (tag & Htag & H)]].
    + apply match_anywhere_lits in H. vm_compute in H. discriminate.
    + simpl in Htag. apply list_elem_of_singleton in Htag as ->.
      apply match_anywhere_lits in H. vm_compute in H. discriminate.
  - vm_compute. reflexivity.
Qed.


(** C2: a given [min_price] adds the inclusive lower bound [$gte] on the
    price and a given [max_price] the inclusive upper bound [$lte], in every
    combination; a given [bedrooms] adds a lower bound [$gte] on the number
    of bedrooms, not an equality. *)
Theorem search_filter_numeric_bounds :
  (forall query,
     search_filter query !! "price" =
       match PropertyQuery.min_price query, PropertyQuery.max_price query with
       | Some lo, Some hi =>
           Some (Field (Cmp (<["$lte" := NFloat hi]> {["$gte" := NFloat lo]})))
       | Some lo, None => Some (Field (Cmp {["$gte" := NFloat lo]}))
       | None, Some hi => Some (Field (Cmp {["$lte" := NFloat hi]}))
       | None, None => None
       end) /\
  (forall query,
     search_filter query !! "bedrooms" =
       (fun b => Field (Cmp {["$gte" := NInt b]})) <$> PropertyQuery.bedrooms query) /\
  (forall query p o,
     matches (search_filter query) (stored_property p o) = true <->
       matches (search_filter (text_part query)) (stored_property p o) = true /\
       (forall lo, PropertyQuery.min_price query = Some lo ->
          (lo <= Property.price p)%Q) /\
       (forall hi, PropertyQuery.max_price query = Some hi ->
          (Property.price p <= hi)%Q) /\
       (forall b, PropertyQuery.bedrooms query = Some b ->
          b <= Property.bedrooms p)).
Proof.
  split; [|split].
  - intros query. apply (search_filter_lookup query).
  - intros query. apply (search_filter_lookup query).
  - intros query p o. rewrite !matches_search_filter.
    pose proof (bounds_stored query p o) as Hb. simpl in Hb |- *.
    intuition.
Qed.

(** A search for two bedrooms or more finds the listing with three. *)
Example bedrooms_is_a_minimum :
  matches
    (search_filter {| PropertyQuery.q := None; PropertyQuery.city := None;
                      PropertyQuery.min_price := None;
                      PropertyQuery.max_price := None;
                      PropertyQuery.bedrooms := Some 2 |})
    (stored_property skyline_penthouse 0) = true.
Proof. vm_compute. reflexivity. Qed.

(** ** The adapter *)

Lemma filter_valid_empty : filter_valid ∅ = true.
Proof. apply bool_decide_eq_true_2, map_Forall_empty. Qed.

Lemma filter_matches_empty (l : list doc) : List.filter (matches ∅) l = l.
Proof.
  induction l as [|d l IH]; simpl; [reflexivity|].
  rewrite matches_empty, IH. reflexivity.
Qed.

Lemma get_all_documents name st :
  get_documents name None None (Some st) = (inr (collection st name), Some st).
Proof.
  unfold get_documents. simpl. rewrite filter_valid_empty, filter_matches_empty.
  reflexivity.
Qed.

Lemma get_first_documents name n st :
  get_documents name (Some ∅) (Some n) (Some st) =
  (inr (take n (collection st name)), Some st).
Proof.
  unfold get_documents. simpl. rewrite filter_valid_empty, filter_matches_empty.
  reflexivity.
Qed.

Lemma get_documents_found name filt lim db docs db' :
  get_documents name filt lim db = (inr docs, db') ->
  db' = db /\ docs ⊆ handle_collection db name /\
  forall n, lim = Some n -> (length docs <= n)%nat.
Proof.
  unfold get_documents. destruct db as [st|]; [|discriminate].
  destruct (filter_valid _); [|discriminate].
  intros [= <- <-]. split; [reflexivity|]. simpl. split.
  - intros d Hd. destruct lim as [n|]; simpl in Hd.
    + apply subseteq_take in Hd. apply list_elem_of_In in Hd.
      apply filter_In in Hd as [Hd _]. by apply list_elem_of_In.
    + apply list_elem_of_In in Hd.
      apply filter_In in Hd as [Hd _]. by apply list_elem_of_In.
  - intros n ->. simpl. rewrite length_take. lia.
Qed.

Lemma bind_get_documents {A} name filt lim (k : list doc -> io A) db :
  (get_documents name filt lim ≫= k) db =
  match get_documents name filt lim db with
  | (inr docs, _) => k docs db
  | (inl e, _) => (inl e, db)
  end.
Proof.
  unfold mbind, io_bind. unfold get_documents.
  destruct db as [st|]; [|reflexivity].
  destruct (filter_valid _); reflexivity.
Qed.

(** ** Identifiers in a listing *)

Lemma hex_digits_length k : forall n acc,
  String.length (hex_digits k n acc) = (k + String.length acc)%nat.
Proof.
  induction k as [|k IH]; intros n acc; simpl; [reflexivity|].
  rewrite IH. simpl. lia.
Qed.

Lemma oid_str_not_empty o : oid_str o <> "".
Proof.
  intros H. pose proof (hex_digits_length 24 o "") as Hl.
  fold (oid_str o) in Hl. rewrite H in Hl. discriminate.
Qed.

Section Listings.
Variable py_repr : value -> string.

Lemma expose_id_fields d :
  expose_id py_repr d !! "_id" = None /\
  expose_id py_repr d !! "id" =
    Some (VStr (py_str py_repr (default (VStr "") (d !! "_id")))) /\
  forall k, k <> "id" -> k <> "_id" -> expose_id py_repr d !! k = d !! k.
Proof.
  unfold expose_id. repeat split.
  - rewrite lookup_insert_ne by done. apply lookup_delete_eq.
  - apply lookup_insert_eq.
  - intros k H1 H2. rewrite lookup_insert_ne, lookup_delete_ne by done.
    reflexivity.
Qed.

Lemma expose_id_stored p o :
  expose_id py_repr (stored_property p o) =
  <["id" := VStr (oid_str o)]> (model_dump (RProperty p)).
Proof.
  unfold expose_id, stored_property.
  rewrite lookup_insert_eq, delete_insert_eq. simpl.
  rewrite delete_id by (by simplify_map_eq). reflexivity.
Qed.

Lemma as_items_normalised docs coll :
  docs ⊆ coll -> normalised py_repr coll (as_items py_repr docs).
Proof.
  intros Hsub item Hitem. simpl in Hitem.
  apply list_elem_of_fmap in Hitem as (d & -> & Hd).
  destruct (expose_id_fields d) as (H1 & H2 & H3).
  split; [exact H1|]. exists d. auto.
Qed.
End Listings.

(** ** The store after an insertion *)

Lemma collection_insert_one name d st :
  collection (insert_one name d st) name =
  (collection st name ++ [<["_id" := VOid (next_oid st)]> d])%list.
Proof. unfold collection at 1. simpl. rewrite lookup_insert_eq. reflexivity. Qed.

Lemma collection_insert_one_ne name name' d st :
  name <> name' -> collection (insert_one name d st) name' = collection st name'.
Proof.
  intros Hne. unfold collection. simpl. rewrite lookup_insert_ne by exact Hne.
  reflexivity.
Qed.

Lemma collection_seeded st :
  collection (seeded st) "property" =
  (collection st "property" ++
     [stored_property skyline_penthouse (next_oid st);
      stored_property marina_bay_residence (N.succ (next_oid st))])%list.
Proof.
  unfold seeded. rewrite !collection_insert_one, <- app_assoc. reflexivity.
Qed.

Lemma create_all_samples st :
  create_all samples (Some st) = (inr tt, Some (seeded st)).
Proof. reflexivity. Qed.

(** ** What the listing routes answer *)

Section Routes.
Variable py_repr : value -> string.

Lemma search_properties_result query db :
  search_properties py_repr query db =
  match get_documents "property" (Some (search_filter query)) (Some 50%nat) db with
  | (inr docs, _) => (OK (as_items py_repr docs), db)
  | (inl e, _) => (HTTPException 500 e, db)
  end.
Proof.
  unfold search_properties, try_except. rewrite bind_get_documents.
  destruct (get_documents _ _ _ _) as [[e|docs] db']; reflexivity.
Qed.

Lemma list_brokers_result db :
  list_brokers py_repr db =
  match get_documents "broker" (Some ∅) (Some 50%nat) db with
  | (inr docs, _) => (OK (as_items py_repr docs), db)
  | (inl e, _) => (HTTPException 500 e, db)
  end.
Proof.
  unfold list_brokers, try_except. rewrite bind_get_documents.
  destruct (get_documents _ _ _ _) as [[e|docs] db']; reflexivity.
Qed.

Lemma seed_disconnected :
  seed_sample_properties py_repr None = (HTTPException 500 DatabaseUnavailable, None).
Proof. reflexivity. Qed.

Lemma seed_empty st :
  collection st "property" = [] ->
  seed_sample_properties py_repr (Some st) =
  (OK (as_items py_repr (collection (seeded st) "property")), Some (seeded st)).
Proof.
  intros He. unfold seed_sample_properties, try_except.
  rewrite bind_get_documents, get_first_documents, He. simpl take.
  unfold mbind at 1, io_bind. rewrite create_all_samples.
  rewrite bind_get_documents, get_all_documents. reflexivity.
Qed.

Lemma seed_not_empty st :
  collection st "property" <> [] ->
  seed_sample_properties py_repr (Some st) =
  (OK (as_items py_repr (collection st "property")), Some st).
Proof.
  intros Hne. unfold seed_sample_properties, try_except.
  rewrite bind_get_documents, get_first_documents.
  destruct (collection st "property") as [|d l] eqn:Hc; [congruence|].
  simpl take. unfold mbind at 1, io_bind. simpl.
  rewrite bind_get_documents, get_all_documents, Hc. reflexivity.
Qed.
End Routes.

(** C3 (amended): the property search and the broker listing answer with at
    most 50 items, whatever the store holds; the sample listing reads the
    collection without a limit and answers with every property of the
    store. *)
Theorem listing_caps (py_repr : value -> string) :
  (forall query db,
     (item_count (fst (search_properties py_repr query db)) <= 50)%nat) /\
  (forall db, (item_count (fst (list_brokers py_repr db)) <= 50)%nat) /\
  (forall db body db',
     seed_sample_properties py_repr db = (OK body, db') ->
     items body = map (expose_id py_repr) (handle_collection db' "property")).
Proof.
  split; [|split].
  - intros query db. rewrite search_properties_result.
    destruct (get_documents _ _ _ _) as [[e|docs] db'] eqn:Hg; simpl; [lia|].
    apply get_documents_found in Hg as (_ & _ & Hn).
    rewrite length_map. by apply Hn.
  - intros db. rewrite list_brokers_result.
    destruct (get_documents _ _ _ _) as [[e|docs] db'] eqn:Hg; simpl; [lia|].
    apply get_documents_found in Hg as (_ & _ & Hn).
    rewrite length_map. by apply Hn.
  - intros [st|] body db'; [|rewrite seed_disconnected; discriminate].
    destruct (collection st "property") as [|d l] eqn:Hc.
    + rewrite (seed_empty _ _ Hc). intros [= <- <-]. reflexivity.
    + rewrite seed_not_empty by congruence. intros [= <- <-]. reflexivity.
Qed.

Lemma listing_caps_witness :
  items (as_items no_repr (handle_collection (store_after 3) "property")) =
  map (expose_id no_repr) (handle_collection (store_after 3) "property").
Proof.
  apply (proj2 (proj2 (listing_caps no_repr)) (store_after 3) _ (store_after 3)).
  vm_compute. reflexivity.
Defined.

(** C3 as stated fails: in a store of 51 listings the sample listing answers
    with 51 items. *)
Lemma sample_listing_exceeds_fifty :
  item_count (fst (seed_sample_properties no_repr (store_after 51))) = 51%nat /\
  ~ (item_count (fst (seed_sample_properties no_repr (store_after 51))) <= 50)%nat.
Proof.
  assert (H : item_count (fst (seed_sample_properties no_repr (store_after 51)))
              = 51%nat) by (vm_compute; reflexivity).
  split; [exact H | rewrite H; lia].
Qed.

(** C4: every document of a listing is a stored document of the collection
    with its [_id] removed and that value, as a string, under [id]; no item
    has an [_id]. *)
Theorem listings_expose_id (py_repr : value -> string) :
  (forall query db body db',
     search_properties py_repr query db = (OK body, db') ->
     normalised py_repr (handle_collection db' "property") body) /\
  (forall db body db',
     seed_sample_properties py_repr db = (OK body, db') ->
     normalised py_repr (handle_collection db' "property") body) /\
  (forall db body db',
     list_brokers py_repr db = (OK body, db') ->
     normalised py_repr (handle_collection db' "broker") body).
Proof.
  split; [|split].
  - intros query db body db'. rewrite search_properties_result.
    destruct (get_documents _ _ _ _) as [[e|docs] db1] eqn:Hg; [discriminate|].
    intros [= <- <-]. apply get_documents_found in Hg as (_ & Hsub & _).
    by apply as_items_normalised.
  - intros [st|] body db'; [|rewrite seed_disconnected; discriminate].
    destruct (collection st "property") as [|d l] eqn:Hc.
    + rewrite (seed_empty _ _ Hc). intros [= <- <-].
      by apply as_items_normalised.
    + rewrite seed_not_empty by congruence. intros [= <- <-].
      by apply as_items_normalised.
  - intros db body db'. rewrite list_brokers_result.
    destruct (get_documents _ _ _ _) as [[e|docs] db1] eqn:Hg; [discriminate|].
    intros [= <- <-]. apply get_documents_found in Hg as (_ & Hsub & _).
    by apply as_items_normalised.
Qed.

Lemma listings_expose_id_witness :
  normalised (fun _ => "") (handle_collection (store_after 2) "property")
    (as_items (fun _ => "") (handle_collection (store_after 2) "property")).
Proof.
  apply (proj1 (listings_expose_id (fun _ => "")) PropertyQuery.empty
           (store_after 2)).
  vm_compute. reflexivity.
Defined.

(** ** Creating and finding a listing *)

Lemma search_filter_empty : search_filter PropertyQuery.empty = ∅.
Proof. reflexivity. Qed.

Lemma validate_property_same_fields i p :
  validate_property i = inr p -> same_fields i p.
Proof.
  unfold validate_property. destruct (property_errors i); [|discriminate].
  intros [= <-]. unfold same_fields. simpl. repeat split.
Qed.

Lemma post_property_valid i p db :
  validate_property i = inr p -> post_property i db = create_property p db.
Proof. intros H. unfold post_property, with_body. rewrite H. reflexivity. Qed.

(** C5 (amended): in a connected store that holds fewer than 50 listings,
    creating a valid property answers with its new identifier, and a search
    with the empty query then lists that property, every field as sent,
    under that identifier, which is not the empty string. *)
Theorem created_property_is_found (py_repr : value -> string) i p st :
  validate_property i = inr p ->
  (length (collection st "property") < 50)%nat ->
  let id := oid_str (next_oid st) in
  let st' := insert_one "property" (model_dump (RProperty p)) st in
  same_fields i p /\
  post_property i (Some st) = (OK {["id" := VStr id]}, Some st') /\
  exists body,
    search_properties py_repr PropertyQuery.empty (Some st') = (OK body, Some st') /\
    <["id" := VStr id]> (model_dump (RProperty p)) ∈ items body /\
    id <> "".
Proof.
  intros Hv Hlen id st'. split; [by apply validate_property_same_fields|].
  split; [rewrite (post_property_valid _ _ _ Hv); reflexivity|].
  exists (as_items py_repr (collection st' "property")). split; [|split].
  - rewrite search_properties_result, search_filter_empty, get_first_documents.
    rewrite take_ge; [reflexivity|].
    unfold st'. rewrite collection_insert_one, length_app. simpl. lia.
  - unfold st'. rewrite collection_insert_one. simpl. rewrite map_app. simpl.
    apply elem_of_app. right. apply list_elem_of_singleton.
    symmetry. apply (expose_id_stored py_repr p (next_oid st)).
  - apply oid_str_not_empty.
Qed.

Lemma created_property_is_found_witness :
  let id := oid_str 2 in
  let st' := insert_one "property" (model_dump (RProperty marina_bay_residence))
               (default empty_store (store_after 2)) in
  same_fields (body_of marina_bay_residence) marina_bay_residence /\
  post_property (body_of marina_bay_residence) (store_after 2) =
    (OK {["id" := VStr id]}, Some st') /\
  exists body,
    search_properties no_repr PropertyQuery.empty (Some st') = (OK body, Some st') /\
    <["id" := VStr id]> (model_dump (RProperty marina_bay_residence)) ∈ items body /\
    id <> "".
Proof.
  apply (created_property_is_found no_repr (body_of marina_bay_residence)
           marina_bay_residence (default empty_store (store_after 2))).
  - reflexivity.
  - vm_compute. lia.
Defined.

(** C5 as stated fails: after 50 listings, a newly created property is not
    among the 50 items that the search with the empty query returns. *)
Lemma fifty_first_property_not_found :
  let created := post_property (body_of marina_bay_residence) (store_after 50) in
  let found := fst (search_properties no_repr PropertyQuery.empty (snd created)) in
  validate_property (body_of marina_bay_residence) = inr marina_bay_residence /\
  fst created = OK {["id" := VStr (oid_str 50)]} /\
  item_count found = 50%nat /\
  Some "Marina Bay Residence" ∉ listed_titles found.
Proof.
  intros created found.
  split; [reflexivity|].
  split; [vm_compute; reflexivity|].
  split; [vm_compute; reflexivity|].
  assert (Hall : listed_titles found = replicate 50 (Some "Loft"))
    by (vm_compute; reflexivity).
  rewrite Hall. intros [[=] _]%elem_of_replicate.
Qed.

(** ** Seeding the samples *)

(** C6: in a connected store whose property collection is empty the seeding
    inserts the two predefined samples, and nothing else; when the
    collection is not empty it inserts nothing.  Two calls in sequence
    therefore add at most two documents: the second call never adds one. *)
Theorem seed_inserts_two_once (py_repr : value -> string) :
  (forall st,
     collection st "property" = [] ->
     let two := [stored_property skyline_penthouse (next_oid st);
                 stored_property marina_bay_residence (N.succ (next_oid st))] in
     seed_sample_properties py_repr (Some st) =
       (OK (as_items py_repr two), Some (seeded st)) /\
     collection (seeded st) "property" = two /\
     forall name, name <> "property" ->
       collection (seeded st) name = collection st name) /\
  (forall st,
     collection st "property" <> [] ->
     snd (seed_sample_properties py_repr (Some st)) = Some st) /\
  (forall db,
     let db1 := snd (seed_sample_properties py_repr db) in
     let db2 := snd (seed_sample_properties py_repr db1) in
     db2 = db1 /\
     exists added,
       handle_collection db2 "property" =
         (handle_collection db "property" ++ added)%list /\
       (length added <= 2)%nat).
Proof.
  split; [|split].
  - intros st He two.
    assert (Hc : collection (seeded st) "property" = two)
      by (rewrite collection_seeded, He; reflexivity).
    split; [rewrite (seed_empty _ _ He), Hc; reflexivity|].
    split; [exact Hc|].
    intros name Hne. unfold seeded.
    rewrite !collection_insert_one_ne by congruence. reflexivity.
  - intros st Hne. rewrite seed_not_empty by exact Hne. reflexivity.
  - intros [st|]; [|simpl; split; [reflexivity | exists []; split; [reflexivity | simpl; lia]]].
    destruct (collection st "property") as [|d l] eqn:Hc.
    + rewrite (seed_empty _ _ Hc). simpl.
      rewrite seed_not_empty by (rewrite collection_seeded, Hc; discriminate).
      split; [reflexivity|]. simpl.
      eexists. split; [apply collection_seeded | simpl; lia].
    + rewrite seed_not_empty by congruence. simpl.
      rewrite seed_not_empty by congruence. simpl.
      split; [reflexivity|]. exists []. rewrite app_nil_r.
      split; [reflexivity | simpl; lia].
Qed.

Lemma seed_inserts_two_once_witness :
  let two := [stored_property skyline_penthouse 0;
              stored_property marina_bay_residence 1] in
  seed_sample_properties no_repr (Some empty_store) =
    (OK (as_items no_repr two), Some (seeded empty_store)) /\
  collection (seeded empty_store) "property" = two /\
  forall name, name <> "property" ->
    collection (seeded empty_store) name = collection empty_store name.
Proof.
  apply (proj1 (seed_inserts_two_once no_repr) empty_store). reflexivity.
Defined.

(** The two samples pass the validation of [Property]. *)
Lemma samples_are_valid :
  Forall (fun s => validate_property (body_of s) = inr s) samples.
Proof. repeat constructor. Qed.

(** ** Validation *)

Lemma check_ge_float_negative field x :
  (x < 0)%Q -> check_ge_float field 0 x = [field].
Proof.
  intros H. unfold check_ge_float.
  destruct (Qle_bool 0 x) eqn:Hle; [|reflexivity].
  apply Qle_bool_iff in Hle. exfalso. exact (Qlt_not_le _ _ H Hle).
Qed.

Lemma check_ge_float_ok field x :
  (0 <= x)%Q -> check_ge_float field 0 x = [].
Proof.
  intros H. unfold check_ge_float. apply Qle_bool_iff in H. rewrite H. reflexivity.
Qed.

Lemma check_ge_int_negative field x : x < 0 -> check_ge_int field 0 x = [field].
Proof.
  intros H. unfold check_ge_int. destruct (Z.leb_spec 0 x); [lia | reflexivity].
Qed.

Lemma check_ge_int_ok field x : 0 <= x -> check_ge_int field 0 x = [].
Proof.
  intros H. unfold check_ge_int. destruct (Z.leb_spec 0 x); [reflexivity | lia].
Qed.

Lemma check_le_float_above field x :
  (5 < x)%Q -> check_le_float field 5 x = [field].
Proof.
  intros H. unfold check_le_float.
  destruct (Qle_bool x 5) eqn:Hle; [|reflexivity].
  apply Qle_bool_iff in Hle. exfalso. exact (Qlt_not_le _ _ H Hle).
Qed.

(** C7: a property body with a negative price, number of bedrooms, number
    of bathrooms or area is answered with the validation error, which names
    the field, and the store is left as it was; a body in which all four are
    at least zero passes validation and reaches the handler. *)
Theorem negative_property_rejected :
  (forall i db,
     (Property.in_price i < 0)%Q \/ Property.in_bedrooms i < 0 \/
     (Property.in_bathrooms i < 0)%Q \/ Property.in_area_sqft i < 0 ->
     exists errs,
       post_property i db = (Unprocessable errs, db) /\
       ((Property.in_price i < 0)%Q -> "price" ∈ errs) /\
       (Property.in_bedrooms i < 0 -> "bedrooms" ∈ errs) /\
       ((Property.in_bathrooms i < 0)%Q -> "bathrooms" ∈ errs) /\
       (Property.in_area_sqft i < 0 -> "area_sqft" ∈ errs)) /\
  (forall i,
     (0 <= Property.in_price i)%Q -> 0 <= Property.in_bedrooms i ->
     (0 <= Property.in_bathrooms i)%Q -> 0 <= Property.in_area_sqft i ->
     exists p,
       validate_property i = inr p /\
       forall db, post_property i db = create_property p db).
Proof.
  split.
  - intros i db Hneg. exists (property_errors i).
    assert (Hin :
      ((Property.in_price i < 0)%Q -> "price" ∈ property_errors i) /\
      (Property.in_bedrooms i < 0 -> "bedrooms" ∈ property_errors i) /\
      ((Property.in_bathrooms i < 0)%Q -> "bathrooms" ∈ property_errors i) /\
      (Property.in_area_sqft i < 0 -> "area_sqft" ∈ property_errors i)).
    { unfold property_errors. repeat split; intros H.
      - rewrite (check_ge_float_negative _ _ H), !elem_of_app, list_elem_of_singleton; auto 10.
      - rewrite (check_ge_int_negative "bedrooms" _ H), !elem_of_app, list_elem_of_singleton; auto 10.
      - rewrite (check_ge_float_negative "bathrooms" _ H), !elem_of_app, list_elem_of_singleton; auto 10.
      - rewrite (check_ge_int_negative "area_sqft" _ H), !elem_of_app, list_elem_of_singleton; auto 10. }
    split; [|exact Hin].
    unfold post_property, with_body, validate_property.
    destruct (property_errors i) as [|e errs] eqn:He; [|reflexivity].
    exfalso. destruct Hin as (H1 & H2 & H3 & H4).
    destruct Hneg as [H|[H|[H|H]]];
      [apply H1 in H | apply H2 in H | apply H3 in H | apply H4 in H];
      by apply elem_of_nil in H.
  - intros i Hp Hb Hh Ha.
    assert (He : property_errors i = []).
    { unfold property_errors.
      rewrite !check_ge_float_ok, !check_ge_int_ok by assumption. reflexivity. }
    unfold validate_property, post_property, with_body, validate_property.
    rewrite He. eexists. split; reflexivity.
Qed.

Lemma negative_property_rejected_witness :
  exists p,
    validate_property (body_of loft) = inr p /\
    forall db, post_property (body_of loft) db = create_property p db.
Proof.
  apply (proj2 negative_property_rejected (body_of loft)); vm_compute; congruence.
Defined.

Lemma broker_errors_none (validate_email : string -> option string) i :
  Broker.in_rating i = None ->
  (forall n, Broker.in_reviews_count i = Some n -> 0 <= n) ->
  (forall e, Broker.in_email i = Some e -> is_Some (validate_email e)) ->
  broker_errors validate_email i = [].
Proof.
  intros Hr Hn He. unfold broker_errors. rewrite Hr. simpl.
  destruct (Broker.in_reviews_count i) as [n|]; simpl.
  - rewrite check_ge_int_ok by auto. simpl.
    destruct (Broker.in_email i) as [e|]; simpl; [|reflexivity].
    unfold check_email. by destruct (He e eq_refl) as [e' ->].
  - destruct (Broker.in_email i) as [e|]; simpl; [|reflexivity].
    unfold check_email. by destruct (He e eq_refl) as [e' ->].
Qed.

(** C8: a broker body whose rating is below 0 or above 5 is answered with the
    validation error on [rating] and nothing is stored.  A body without a
    rating, its other fields passing their checks, is accepted: the broker
    it yields is rated 4.8, it is inserted, and 4.8 is the rating of the
    document the store then holds last. *)
Theorem broker_rating_checked (validate_email : string -> option string) :
  (forall i r db,
     Broker.in_rating i = Some r ->
     (r < 0)%Q \/ (5 < r)%Q ->
     exists errs,
       "rating" ∈ errs /\
       post_broker validate_email i db = (Unprocessable errs, db)) /\
  (forall i st,
     Broker.in_rating i = None ->
     (forall n, Broker.in_reviews_count i = Some n -> 0 <= n) ->
     (forall e, Broker.in_email i = Some e -> is_Some (validate_email e)) ->
     exists b st',
       validate_broker validate_email i = inr b /\
       Broker.rating b = 4.8%Q /\
       post_broker validate_email i (Some st) =
         (OK {["id" := VStr (oid_str (next_oid st))]}, Some st') /\
       exists d,
         last (collection st' "broker") = Some d /\
         d !! "_id" = Some (VOid (next_oid st)) /\
         d !! "rating" = Some (VFloat 4.8)).
Proof.
  split.
  - intros i r db Hr Hout. exists (broker_errors validate_email i).
    assert (Hin : "rating" ∈ broker_errors validate_email i).
    { unfold broker_errors. rewrite Hr. simpl. destruct Hout as [H|H].
      - rewrite (check_ge_float_negative _ _ H), !elem_of_app, list_elem_of_singleton.
        auto.
      - rewrite (check_le_float_above _ _ H), !elem_of_app, list_elem_of_singleton.
        auto. }
    split; [exact Hin|].
    unfold post_broker, with_body, validate_broker.
    destruct (broker_errors validate_email i) as [|e errs]; [|reflexivity].
    by apply elem_of_nil in Hin.
  - intros i st Hr Hn He.
    pose proof (broker_errors_none validate_email i Hr Hn He) as Herr.
    unfold post_broker, with_body, validate_broker. rewrite Herr, Hr. simpl.
    eexists _, _. split; [reflexivity|]. split; [reflexivity|].
    split; [reflexivity|].
    rewrite collection_insert_one, last_snoc.
    eexists. split; [reflexivity|]. split; by simplify_map_eq.
Qed.

(** A validator for the examples: an address is well formed when it holds
    an [@]; it is kept as given. *)
Lemma broker_rating_checked_witness :
  let has_at := fun e : string =>
    if existsb (Ascii.eqb "@") (list_ascii_of_string e) then Some e else None in
  let rated6 := {| Broker.in_name := "Ada"; Broker.in_title := None;
                   Broker.in_avatar_url := None; Broker.in_rating := Some 6%Q;
                   Broker.in_reviews_count := None; Broker.in_phone := None;
                   Broker.in_email := None; Broker.in_badges := None |} in
  let unrated := {| Broker.in_name := "Ada"; Broker.in_title := None;
                    Broker.in_avatar_url := None; Broker.in_rating := None;
                    Broker.in_reviews_count := Some 12; Broker.in_phone := None;
                    Broker.in_email := Some "ada@example.org";
                    Broker.in_badges := None |} in
  (exists errs,
     "rating" ∈ errs /\
     post_broker has_at rated6 (Some empty_store) =
       (Unprocessable errs, Some empty_store)) /\
  (exists b st',
     validate_broker has_at unrated = inr b /\
     Broker.rating b = 4.8%Q /\
     post_broker has_at unrated (Some empty_store) =
       (OK {["id" := VStr (oid_str (next_oid empty_store))]}, Some st') /\
     exists d,
       last (collection st' "broker") = Some d /\
       d !! "_id" = Some (VOid (next_oid empty_store)) /\
       d !! "rating" = Some (VFloat 4.8)).
Proof.
  intros has_at rated6 unrated. split.
  - apply (proj1 (broker_rating_checked has_at) rated6 6%Q (Some empty_store)).
    + reflexivity.
    + right. reflexivity.
  - apply (proj2 (broker_rating_checked has_at) unrated empty_store).
    + reflexivity.
    + intros n [= <-]. lia.
    + intros e [= <-]. vm_compute. eauto.
Defined.

(** C9: a booking body whose email is malformed is answered with the
    validation error and nothing is stored; for a body that passes
    validation the answer is the new identifier with the status
    [confirmed], whatever bookings the store already holds.  Only a storage
    error stands in the way: without a connection the insertion fails and
    the answer is the server error, as for every route that uses the
    store. *)
Theorem booking_always_confirmed (validate_email : string -> option string) :
  (forall i db,
     validate_email (Booking.email i) = None ->
     post_booking validate_email i db = (Unprocessable ["email"], db)) /\
  (forall i b st,
     validate_booking validate_email i = inr b ->
     post_booking validate_email i (Some st) =
       (OK (<["id" := VStr (oid_str (next_oid st))]> {["status" := VStr "confirmed"]}),
        Some (insert_one "booking" (model_dump (RBooking b)) st))) /\
  (forall i b,
     validate_booking validate_email i = inr b ->
     post_booking validate_email i None =
       (HTTPException 500 DatabaseUnavailable, None)).
Proof.
  split; [|split].
  - intros i db He. unfold post_booking, with_body, validate_booking.
    rewrite He. reflexivity.
  - intros i b st Hv. unfold post_booking, with_body. rewrite Hv. reflexivity.
  - intros i b Hv. unfold post_booking, with_body. rewrite Hv. reflexivity.
Qed.

Lemma booking_always_confirmed_witness :
  let has_at := fun e : string =>
    if existsb (Ascii.eqb "@") (list_ascii_of_string e) then Some e else None in
  let i := {| Booking.property_id := oid_str 0; Booking.name := "Ada";
              Booking.email := "ada@example.org"; Booking.phone := None;
              Booking.preferred_date := "2025-03-01";
              Booking.preferred_time := "14:30"; Booking.notes := None |} in
  let st := insert_one "booking" (model_dump (RBooking i)) empty_store in
  post_booking has_at i (Some st) =
    (OK (<["id" := VStr (oid_str 1)]> {["status" := VStr "confirmed"]}),
     Some (insert_one "booking" (model_dump (RBooking i)) st)).
Proof.
  intros has_at i st.
  apply (proj1 (proj2 (booking_always_confirmed has_at)) i i st). reflexivity.
Defined.

(** ** Empty texts and zero bounds *)

(** C10: a city or a free-text term given as the empty string yields the
    filter, and so the answer, of a query without that field; a bound of
    zero on the price or the bedrooms is a bound like any other and is put
    in the filter. *)
Theorem empty_text_is_no_filter :
  (forall query,
     search_filter (with_city (Some "") query) = search_filter (with_city None query)) /\
  (forall query,
     search_filter (with_q (Some "") query) = search_filter (with_q None query)) /\
  (forall py_repr query db,
     search_properties py_repr (with_city (Some "") query) db =
     search_properties py_repr (with_city None query) db /\
     search_properties py_repr (with_q (Some "") query) db =
     search_properties py_repr (with_q None query) db) /\
  (forall query,
     PropertyQuery.min_price query = Some 0%Q ->
     exists ops, search_filter query !! "price" = Some (Field (Cmp ops)) /\
                 ops !! "$gte" = Some (NFloat 0)) /\
  (forall query,
     PropertyQuery.max_price query = Some 0%Q ->
     exists ops, search_filter query !! "price" = Some (Field (Cmp ops)) /\
                 ops !! "$lte" = Some (NFloat 0)) /\
  (forall query,
     PropertyQuery.bedrooms query = Some 0 ->
     search_filter query !! "bedrooms" = Some (Field (Cmp {["$gte" := NInt 0]}))).
Proof.
  assert (Hc : forall query,
    search_filter (with_city (Some "") query) = search_filter (with_city None query))
    by reflexivity.
  assert (Hq : forall query,
    search_filter (with_q (Some "") query) = search_filter (with_q None query))
    by reflexivity.
  split; [exact Hc|]. split; [exact Hq|]. split; [|split; [|split]].
  - intros py_repr query db. unfold search_properties. rewrite Hc, Hq. split; reflexivity.
  - intros query Hm.
    destruct (search_filter_lookup query) as (_ & _ & Hp & _). rewrite Hm in Hp.
    destruct (PropertyQuery.max_price query) as [hi|]; eexists; (split; [exact Hp|]);
      by simplify_map_eq.
  - intros query Hm.
    destruct (search_filter_lookup query) as (_ & _ & Hp & _). rewrite Hm in Hp.
    destruct (PropertyQuery.min_price query) as [lo|]; eexists; (split; [exact Hp|]);
      by simplify_map_eq.
  - intros query Hb.
    destruct (search_filter_lookup query) as (_ & _ & _ & Hbd & _).
    rewrite Hbd, Hb. reflexivity.
Qed.

Lemma empty_text_is_no_filter_witness :
  let query := {| PropertyQuery.q := None; PropertyQuery.city := None;
                  PropertyQuery.min_price := None;
                  PropertyQuery.max_price := Some 0%Q;
                  PropertyQuery.bedrooms := None |} in
  exists ops, search_filter query !! "price" = Some (Field (Cmp ops)) /\
              ops !! "$lte" = Some (NFloat 0).
Proof.
  intros query.
  apply (proj1 (proj2 (proj2 (proj2 (proj2 empty_text_is_no_filter)))) query).
  reflexivity.
Defined.

(** * Further properties *)

(** ** The shape of the filter *)

(** X1: the filter of a search is empty exactly when the query gives no
    city and no free-text term other than the empty string, and no bound. *)
Theorem search_filter_empty_iff query :
  search_filter query = ∅ <->
    pattern_of (PropertyQuery.city query) = None /\
    pattern_of (PropertyQuery.q query) = None /\
    PropertyQuery.min_price query = None /\
    PropertyQuery.max_price query = None /\
    PropertyQuery.bedrooms query = None.
Proof.
  destruct (search_filter_lookup query) as (Hc & Ho & Hp & Hb & Hk).
  split.
  - intros He. rewrite He, lookup_empty in Hc, Ho, Hp, Hb.
    symmetry in Hc, Ho, Hb.
    apply fmap_None in Hc, Ho, Hb.
    destruct (PropertyQuery.min_price query), (PropertyQuery.max_price query);
      try discriminate.
    auto.
  - intros (H1 & H2 & H3 & H4 & H5).
    rewrite H1 in Hc. rewrite H2 in Ho. rewrite H3, H4 in Hp. rewrite H5 in Hb.
    apply map_eq. intros k. rewrite lookup_empty.
    destruct (decide (k = "city")) as [->|?]; [exact Hc|].
    destruct (decide (k = "$or")) as [->|?]; [exact Ho|].
    destruct (decide (k = "price")) as [->|?]; [exact Hp|].
    destruct (decide (k = "bedrooms")) as [->|?]; [exact Hb|].
    by apply Hk.
Qed.



Lemma bounds_exclude lo hi v :
  (hi < lo)%Q ->
  bound_holds "$gte" (Some (NFloat lo)) v = true ->
  bound_holds "$lte" (Some (NFloat hi)) v = true -> False.
Proof.
  intros Hlt. destruct v as [x|]; simpl; [|discriminate].
  unfold cmp_holds. destruct (value_num x) as [n|]; [|discriminate]. simpl.
  rewrite !Qle_bool_iff. intros H1 H2.
  apply (Qlt_not_le _ _ Hlt). by apply Qle_trans with n.
Qed.

(** X3: a price range whose upper bound is below its lower bound excludes
    every document, so the search answers with no item. *)
Theorem inverted_price_range_finds_nothing (py_repr : value -> string) query lo hi :
  PropertyQuery.min_price query = Some lo ->
  PropertyQuery.max_price query = Some hi ->
  (hi < lo)%Q ->
  (forall d, matches (search_filter query) d = false) /\
  (forall db, item_count (fst (search_properties py_repr query db)) = 0%nat).
Proof.
  intros Hlo Hhi Hlt.
  assert (Hno : forall d, matches (search_filter query) d = false).
  { intros d. apply not_true_is_false. rewrite matches_search_filter.
    rewrite Hlo, Hhi. simpl. intros (_ & _ & H1 & H2 & _).
    exact (bounds_exclude _ _ _ Hlt H1 H2). }
  split; [exact Hno|].
  intros db. rewrite search_properties_result. unfold get_documents.
  destruct db as [st|]; [|reflexivity]. simpl.
  destruct (filter_valid _); [|reflexivity]. simpl.
  rewrite length_map, length_take.
  assert (He : List.filter (matches (search_filter query)) (collection st "property") = []).
  { induction (collection st "property") as [|d l IH]; simpl; [reflexivity|].
    rewrite Hno. exact IH. }
  rewrite He. reflexivity.
Qed.

Lemma inverted_price_range_finds_nothing_witness :
  let query := {| PropertyQuery.q := None; PropertyQuery.city := None;
                  PropertyQuery.min_price := Some 500000%Q;
                  PropertyQuery.max_price := Some 400000%Q;
                  PropertyQuery.bedrooms := None |} in
  (forall d, matches (search_filter query) d = false) /\
  (forall db, item_count (fst (search_properties no_repr query db)) = 0%nat).
Proof.
  intros query.
  apply (inverted_price_range_finds_nothing no_repr query 500000%Q 400000%Q);
    reflexivity.
Defined.

(** ** Identifiers, once more *)

Lemma expose_id_of_inserted (py_repr : value -> string) (d : doc) o :
  d !! "_id" = None ->
  expose_id py_repr (<["_id" := VOid o]> d) = <["id" := VStr (oid_str o)]> d.
Proof.
  intros Hd. unfold expose_id.
  rewrite lookup_insert_eq, delete_insert_eq. simpl.
  rewrite delete_id by exact Hd. reflexivity.
Qed.

(** X4: a document without [_id] is listed with the empty string as its
    [id], whatever [id] it held; so renaming the identifier of a document a
    second time erases it. *)
Theorem missing_id_becomes_empty (py_repr : value -> string) (d : doc) :
  (d !! "_id" = None -> expose_id py_repr d = <["id" := VStr ""]> d) /\
  expose_id py_repr (expose_id py_repr d) =
    <["id" := VStr ""]> (delete "_id" d).
Proof.
  assert (H : forall d' : doc, d' !! "_id" = None ->
                expose_id py_repr d' = <["id" := VStr ""]> d').
  { intros d' Hd. unfold expose_id. rewrite Hd. simpl.
    rewrite delete_id by exact Hd. reflexivity. }
  split; [apply H|].
  rewrite H by apply (expose_id_fields py_repr d).
  unfold expose_id. apply insert_insert_eq.
Qed.

Lemma missing_id_becomes_empty_witness :
  expose_id no_repr (model_dump (RProperty loft)) =
  <["id" := VStr ""]> (model_dump (RProperty loft)).
Proof.
  apply (proj1 (missing_id_becomes_empty no_repr (model_dump (RProperty loft)))).
  reflexivity.
Defined.

(** ** Brokers *)

Lemma post_broker_valid (validate_email : string -> option string) i b db :
  validate_broker validate_email i = inr b ->
  post_broker validate_email i db = create_broker b db.
Proof. intros H. unfold post_broker, with_body. rewrite H. reflexivity. Qed.

(** X8: in a connected store that holds fewer than 50 brokers, creating a
    valid broker answers with its new identifier, and the broker listing
    then shows that broker, every field of the model as stored, under that
    identifier. *)
Theorem created_broker_is_listed
    (py_repr : value -> string) (validate_email : string -> option string)
    i b st :
  validate_broker validate_email i = inr b ->
  (length (collection st "broker") < 50)%nat ->
  let id := oid_str (next_oid st) in
  let st' := insert_one "broker" (model_dump (RBroker b)) st in
  post_broker validate_email i (Some st) = (OK {["id" := VStr id]}, Some st') /\
  exists body,
    list_brokers py_repr (Some st') = (OK body, Some st') /\
    <["id" := VStr id]> (model_dump (RBroker b)) ∈ items body.
Proof.
  intros Hv Hlen id st'.
  split; [rewrite (post_broker_valid _ _ _ _ Hv); reflexivity|].
  exists (as_items py_repr (collection st' "broker")). split.
  - rewrite list_brokers_result, get_first_documents.
    rewrite take_ge; [reflexivity|].
    unfold st'. rewrite collection_insert_one, length_app. simpl. lia.
  - unfold st'. rewrite collection_insert_one. simpl. rewrite map_app. simpl.
    apply elem_of_app. right. apply list_elem_of_singleton.
    symmetry. apply expose_id_of_inserted. simpl. by simplify_map_eq.
Qed.

Lemma created_broker_is_listed_witness :
  let accept := fun e : string => Some e in
  let i := {| Broker.in_name := "Ada"; Broker.in_title := None;
              Broker.in_avatar_url := None; Broker.in_rating := None;
              Broker.in_reviews_count := None; Broker.in_phone := None;
              Broker.in_email := Some "ada@example.org";
              Broker.in_badges := None |} in
  let b := {| Broker.name := "Ada"; Broker.title := Some "Senior Broker";
              Broker.avatar_url := None; Broker.rating := 4.8%Q;
              Broker.reviews_count := 0; Broker.phone := None;
              Broker.email := Some "ada@example.org";
              Broker.badges := ["Verified"; "Top Rated"] |} in
  let st' := insert_one "broker" (model_dump (RBroker b)) empty_store in
  post_broker accept i (Some empty_store) = (OK {["id" := VStr (oid_str 0)]}, Some st') /\
  exists body,
    list_brokers no_repr (Some st') = (OK body, Some st') /\
    <["id" := VStr (oid_str 0)]> (model_dump (RBroker b)) ∈ items body.
Proof.
  intros accept i b st'.
  apply (created_broker_is_listed no_repr accept i b empty_store).
  - reflexivity.
  - vm_compute. lia.
Defined.

(** ** Collections do not interfere *)

Lemma search_after_insert_elsewhere (py_repr : value -> string) query name d st :
  name <> "property" ->
  fst (search_properties py_repr query (Some (insert_one name d st))) =
  fst (search_properties py_repr query (Some st)).
Proof.
  intros Hne. rewrite !search_properties_result. unfold get_documents. simpl.
  rewrite collection_insert_one_ne by exact Hne.
  destruct (filter_valid _); reflexivity.
Qed.

(** X9: creating a broker or a booking never changes what a property search
    answers, whether the body is accepted or rejected and whether or not the
    store is connected. *)
Theorem search_ignores_brokers_and_bookings
    (py_repr : value -> string) (validate_email : string -> option string)
    query db :
  (forall i,
     fst (search_properties py_repr query (snd (post_broker validate_email i db))) =
     fst (search_properties py_repr query db)) /\
  (forall i,
     fst (search_properties py_repr query (snd (post_booking validate_email i db))) =
     fst (search_properties py_repr query db)).
Proof.
  split; intros i.
  - unfold post_broker, with_body.
    destruct (validate_broker validate_email i) as [errs|b]; [reflexivity|].
    destruct db as [st|]; [|reflexivity].
    apply search_after_insert_elsewhere. discriminate.
  - unfold post_booking, with_body.
    destruct (validate_booking validate_email i) as [errs|b]; [reflexivity|].
    destruct db as [st|]; [|reflexivity].
    apply search_after_insert_elsewhere. discriminate.
Qed.

(** ** Seeding, once more *)

(** X10: the sample route is idempotent: called again right after a call, it
    gives the same answer and leaves the store as that call left it. *)
Theorem seed_twice_same_answer (py_repr : value -> string) db :
  let first := seed_sample_properties py_repr db in
  seed_sample_properties py_repr (snd first) = first.
Proof.
  destruct db as [st|]; [|reflexivity]. simpl.
  destruct (collection st "property") as [|d l] eqn:Hc.
  - rewrite (seed_empty _ _ Hc). simpl.
    apply seed_not_empty. rewrite collection_seeded, Hc. discriminate.
  - rewrite seed_not_empty by congruence. simpl.
    apply seed_not_empty. congruence.
Qed.

(** ** The diagnostics route *)

Lemma take_chars_length n : forall s, (char_length (take_chars n s) <= n)%nat.
Proof.
  intros s. revert n. induction s as [|c s IH]; intros n; simpl; [lia|].
  destruct (is_continuation c) eqn:Hc; simpl.
  - rewrite Hc. apply IH.
  - destruct n as [|n]; simpl; [lia|]. rewrite Hc. specialize (IH n). lia.
Qed.

Lemma take_chars_short n : forall s, (char_length s <= n)%nat -> take_chars n s = s.
Proof.
  intros s. revert n. induction s as [|c s IH]; intros n; simpl; [reflexivity|].
  destruct (is_continuation c) eqn:Hc; intros H.
  - rewrite IH by exact H. reflexivity.
  - destruct n as [|n]; [lia|]. rewrite IH by lia. reflexivity.
Qed.

Lemma take_chars_prefix n : forall s, exists rest, s = take_chars n s +:+ rest.
Proof.
  intros s. revert n. induction s as [|c s IH]; intros n; simpl; [by exists ""|].
  destruct (is_continuation c).
  - destruct (IH n) as [rest Hr]. exists rest.
    change (String c s = String c (take_chars n s +:+ rest)). f_equal. exact Hr.
  - destruct n as [|n]; [by exists (String c s)|].
    destruct (IH n) as [rest Hr]. exists rest.
    change (String c s = String c (take_chars n s +:+ rest)). f_equal. exact Hr.
Qed.

(** The keys of the response of [test_database]. *)
Ltac six_keys :=
  let k := fresh "k" in
  let Hk := fresh "Hk" in
  intros k; rewrite !elem_of_cons, elem_of_nil;
  split;
  [ intros Hk;
    destruct (decide (k = "backend")); [tauto|];
    destruct (decide (k = "database")); [tauto|];
    destruct (decide (k = "database_url")); [tauto|];
    destruct (decide (k = "database_name")); [tauto|];
    destruct (decide (k = "connection_status")); [tauto|];
    destruct (decide (k = "collections")); [tauto|];
    rewrite ?lookup_insert_ne, lookup_empty in Hk by congruence;
    by destruct Hk
  | intros [->|[->|[->|[->|[->|[->|[]]]]]]]; by simplify_map_eq ].

(** X11: the diagnostics always carry the same six entries, and their
    connection entries agree: the status is [Connected] exactly when the
    handle is set, and exactly then the entries for the URL and the name
    are not null.  The [database] entry is never left at its initial text. *)
Theorem diagnostics_are_consistent env :
  let r := test_database env in
  (forall k, is_Some (r !! k) <->
     k ∈ ["backend"; "database"; "database_url"; "database_name";
          "connection_status"; "collections"]) /\
  r !! "backend" = Some (VStr "✅ Running") /\
  r !! "database" <> Some (VStr "❌ Not Available") /\
  (r !! "connection_status" = Some (VStr "Connected") <-> is_Some (env_db env)) /\
  (r !! "connection_status" = Some (VStr "Not Connected") <-> env_db env = None) /\
  (r !! "database_url" = Some VNull <-> env_db env = None) /\
  (r !! "database_name" = Some VNull <-> env_db env = None).
Proof.
  destruct env as [[[name [e|names]]|] url]; unfold test_database; simpl.
  all: split; [six_keys|].
  all: repeat split; try (by simplify_map_eq); try (intros; by simplify_map_eq);
    try (intros [? [=]]); try discriminate; eauto.
Qed.

(** X12: the diagnostics list at most 10 collections: the first 10 names
    the store lists, all of them when there are at most 10, and none when
    the handle is not set or the listing raises. *)
Theorem diagnostics_list_ten_collections env :
  exists shown,
    test_database env !! "collections" = Some (VStrs shown) /\
    (length shown <= 10)%nat /\
    (forall db names,
       env_db env = Some db -> list_collection_names db = inr names ->
       shown = take 10 names /\
       ((length names <= 10)%nat -> shown = names)) /\
    (env_db env = None -> shown = []) /\
    (forall db e,
       env_db env = Some db -> list_collection_names db = inl e -> shown = []).
Proof.
  destruct env as [[[name [e|names]]|] url]; unfold test_database; simpl.
  - exists []. split; [by simplify_map_eq|]. split; [simpl; lia|].
    split; [intros db names [= <-]; discriminate|].
    split; [discriminate | reflexivity].
  - exists (take 10 names). split; [by simplify_map_eq|].
    split; [rewrite length_take; lia|].
    split; [|split; [discriminate | intros db e [= <-]; discriminate]].
    intros db names' [= <-] [= <-]. split; [reflexivity|].
    intros Hlen. by apply take_ge.
  - exists []. split; [by simplify_map_eq|]. split; [simpl; lia|].
    split; [discriminate|]. split; [reflexivity | discriminate].
Qed.

(** X13: when the listing of the collections raises, the diagnostics still
    report the connection as [Connected], list no collection, and carry in
    [database] the message of the exception cut after its first 50
    characters: a beginning of the message of at most 50 characters, the
    whole message when it has at most 50. *)
Theorem diagnostics_truncate_the_error env db e :
  env_db env = Some db ->
  list_collection_names db = inl e ->
  let r := test_database env in
  exists text,
    r !! "database" = Some (VStr ("⚠️ Connected but Error: " +:+ text)) /\
    text = take_chars 50 e /\
    (exists rest, e = text +:+ rest) /\
    (char_length text <= 50)%nat /\
    ((char_length e <= 50)%nat -> text = e) /\
    r !! "connection_status" = Some (VStr "Connected") /\
    r !! "collections" = Some (VStrs []).
Proof.
  intros Hdb He. destruct env as [d url]. simpl in Hdb. subst d.
  unfold test_database. simpl. rewrite He.
  exists (take_chars 50 e).
  split; [by simplify_map_eq|]. split; [reflexivity|].
  split; [apply take_chars_prefix|].
  split; [apply take_chars_length|].
  split; [apply take_chars_short|].
  split; by simplify_map_eq.
Qed.

(** A message of 30 characters in 60 bytes is kept whole. *)
Lemma diagnostics_truncate_the_error_witness :
  let e := "éééééééééééééééééééééééééééééé" in
  let db := {| db_name := Some "estate"; list_collection_names := inl e |} in
  let r := test_database {| env_db := Some db; env_database_url := None |} in
  exists text,
    r !! "database" = Some (VStr ("⚠️ Connected but Error: " +:+ text)) /\
    text = take_chars 50 e /\
    (exists rest, e = text +:+ rest) /\
    (char_length text <= 50)%nat /\
    ((char_length e <= 50)%nat -> text = e) /\
    r !! "connection_status" = Some (VStr "Connected") /\
    r !! "collections" = Some (VStrs []).
Proof.
  intros e db r.
  apply (diagnostics_truncate_the_error
           {| env_db := Some db; env_database_url := None |} db e);
    reflexivity.
Defined.

(** The cut counts characters, not bytes: that message has 60 bytes and is
    not cut, and one of 51 characters loses its last. *)
Example take_chars_counts_characters :
  String.length "éééééééééééééééééééééééééééééé" = 60%nat /\
  take_chars 50 "éééééééééééééééééééééééééééééé" = "éééééééééééééééééééééééééééééé" /\
  take_chars 50 "012345678901234567890123456789012345678901234567é!"
    = "012345678901234567890123456789012345678901234567é!" /\
  take_chars 50 "0123456789012345678901234567890123456789012345678é!"
    = "0123456789012345678901234567890123456789012345678é".
Proof. repeat split. Qed.

(** X14: with the handle set, the diagnostics report the URL as set exactly
    when [DATABASE_URL] is present and not empty, and they report the name
    of the database when it has one that is not empty, otherwise a fixed
    text. *)
Theorem diagnostics_url_and_name env db :
  env_db env = Some db ->
  let r := test_database env in
  (truthy (env_database_url env) = true ->
     r !! "database_url" = Some (VStr "✅ Set")) /\
  (truthy (env_database_url env) = false ->
     r !! "database_url" = Some (VStr "❌ Not Set")) /\
  (forall name, db_name db = Some name -> name <> "" ->
     r !! "database_name" = Some (VStr name)) /\
  (db_name db = None \/ db_name db = Some "" ->
     r !! "database_name" = Some (VStr "✅ Connected")).
Proof.
  intros Hdb. destruct env as [d url]. simpl in Hdb. subst d.
  destruct db as [name listing]. unfold test_database. simpl.
  repeat split.
  - intros ->. destruct listing; by simplify_map_eq.
  - intros ->. destruct listing; by simplify_map_eq.
  - intros n -> Hn. destruct n as [|c n]; [congruence|]. simpl.
    destruct listing; by simplify_map_eq.
  - intros [-> | ->]; simpl; destruct listing; by simplify_map_eq.
Qed.

Lemma diagnostics_url_and_name_witness :
  let db := {| db_name := Some "estate"; list_collection_names := inr ["property"] |} in
  let r := test_database {| env_db := Some db; env_database_url := Some "" |} in
  (truthy (Some "") = true -> r !! "database_url" = Some (VStr "✅ Set")) /\
  (truthy (Some "") = false -> r !! "database_url" = Some (VStr "❌ Not Set")) /\
  (forall name, db_name db = Some name -> name <> "" ->
     r !! "database_name" = Some (VStr name)) /\
  (db_name db = None \/ db_name db = Some "" ->
     r !! "database_name" = Some (VStr "✅ Connected")).
Proof.
  intros db r.
  apply (diagnostics_url_and_name {| env_db := Some db; env_database_url := Some "" |} db).
  reflexivity.
Defined.
